(** * porkbun: a dynamic-DNS updater over the Porkbun REST API

    Shallow embedding of the three Go packages of the repository
    ([pkg/api], [pkg/porkbun], [cmd/porkbun]) and of the few standard
    library functions they call, followed by the properties of the
    update decision procedure, of the request helper and of the record
    listing. *)

From Stdlib Require Import Strings.String Strings.Ascii Lists.List.
From Stdlib Require Import ZArith NArith Arith Bool Lia DecimalString.
Import ListNotations.

Local Open Scope string_scope.
Local Open Scope list_scope.

(** ** Go values shared by all packages *)

(** A Go [(T, error)] pair in which exactly one side is meaningful.  An
    [error] is represented by the text of its [Error()] method. *)
Inductive Res (A : Type) : Type :=
| OK (a : A)
| Error (e : string).
Arguments OK {A} a.
Arguments Error {A} e.

(** The line feed written [\n] in the Go sources. *)
Definition LF : string := String (ascii_of_nat 10) EmptyString.

(** An [http.Response] body is a stream: either all of it can be read, or
    reading breaks off with an error after some prefix. *)
Inductive Body : Type :=
| Readable (content : string)
| Broken (partial : string) (err : string).

(** [io.ReadAll] *)
Definition ReadAll (b : Body) : Res string :=
  match b with
  | Readable s => OK s
  | Broken _ e => Error e
  end.

(** [io.Copy(io.Discard, body)]: the number of bytes copied (the error is
    dropped by the only caller). *)
Definition CopyDiscard (b : Body) : Z :=
  match b with
  | Readable s => Z.of_nat (String.length s)
  | Broken p _ => Z.of_nat (String.length p)
  end.

Record Response : Type := {
  StatusCode : Z;
  Status : string;
  RespBody : Body
}.

Definition StatusOK : Z := 200%Z.

(** ** Package [api] (src/unnamed/part_000) *)
Module api.

Record Keys : Type := {
  SecretAPIKey : string;
  APIKey : string
}.

Record Status : Type := {
  Status_Status : string;
  Status_Message : string
}.

Record PingRequest : Type := { Ping_Keys : Keys }.

Record PingResponse : Type := {
  Ping_Status : Status;
  YourIP : string
}.

(** Go's [api.Record]; [Record] and [Type] are reserved words here. *)
Record Record_ : Type := {
  ID : string;
  Name : string;
  Type_ : string;
  Content : string;
  TTL : string;
  Prio : string;
  Notes : string
}.

Record RecordsRequest : Type := { Records_Keys : Keys }.

Record RecordsResponse : Type := {
  Records_Status : Status;
  Records : list Record_
}.

Record CreateResponse : Type := {
  Create_Status : Status;
  Create_ID : string
}.

Record UpdateRequest : Type := {
  Req_Keys : Keys;
  Req_Name : string;
  Req_Type : string;
  Req_Content : string;
  Req_TTL : string;
  Req_Prio : string
}.

Record EditResponse : Type := { Edit_Status : Status }.

(** [fmt.Sprintf("%s %s %s %s %s (%s)", ...)]: [%s] prints a string as it is. *)
Definition Record_String (r : Record_) : string :=
  Name r ++ " " ++ Type_ r ++ " " ++ Content r ++ " " ++ TTL r ++ " "
    ++ Prio r ++ " (" ++ ID r ++ ")".

End api.

(** ** Standard library: [strings] *)
Module strings.

(** [strings.Split(s, sep)] for a one-byte separator: the pieces between
    the separators, in order; [n] separators give [n+1] pieces. *)
Fixpoint Split (s : string) (sep : ascii) : list string :=
  match s with
  | EmptyString => [EmptyString]
  | String c s' =>
      if Ascii.eqb c sep then EmptyString :: Split s' sep
      else match Split s' sep with
           | piece :: rest => String c piece :: rest
           | [] => [String c EmptyString]
           end
  end.

(** [strings.Join(elems, sep)] *)
Fixpoint Join (elems : list string) (sep : string) : string :=
  match elems with
  | [] => EmptyString
  | [e] => e
  | e :: rest => e ++ sep ++ Join rest sep
  end.

(** [c >= utf8.RuneSelf] fails for every byte of the string. *)
Fixpoint isASCII (s : string) : bool :=
  match s with
  | EmptyString => true
  | String c s' => Nat.ltb (nat_of_ascii c) 128 && isASCII s'
  end.

(** ['a' <= c && c <= 'z'] then [c -= 'a' - 'A']. *)
Definition upperByte (c : ascii) : ascii :=
  let n := nat_of_ascii c in
  if Nat.leb 97 n && Nat.leb n 122 then ascii_of_nat (n - 32) else c.

Fixpoint upperASCII (s : string) : string :=
  match s with
  | EmptyString => EmptyString
  | String c s' => String (upperByte c) (upperASCII s')
  end.

(** [strings.ToUpper]: the ASCII-only branch is computed here; for any other
    string the function hands over to [strings.Map(unicode.ToUpper, s)],
    which is taken as the parameter [mapUnicodeUpper]. *)
Definition ToUpper (mapUnicodeUpper : string -> string) (s : string) : string :=
  if isASCII s then upperASCII s else mapUnicodeUpper s.

End strings.

(** ** Standard library: [net] and [net/netip]

    [net.ParseIP] and [IP.To4] decide which ping answers reach the write
    step.  They are pure functions on strings and byte slices and are
    transcribed here from the Go standard library ([net/ip.go],
    [net/netip/netip.go]); bytes are numbers below 256. *)
Module net.

Definition isDigit (c : ascii) : bool :=
  let n := nat_of_ascii c in Nat.leb 48 n && Nat.leb n 57.

(** The loop of [netip.parseIPv4].  [first] is [i == 0], [prevDot] is
    [s[i-1] == '.'], [fields] holds the octets stored so far
    ([fields[0:pos]]). *)
Fixpoint parseIPv4_loop (s : string) (first prevDot : bool)
    (fields : list nat) (val pos digLen : nat) : option (list nat) :=
  match s with
  | EmptyString =>
      if Nat.ltb pos 3 then None          (* IPv4 address too short *)
      else Some (fields ++ [val])
  | String c rest =>
      if isDigit c then
        if Nat.eqb digLen 1 && Nat.eqb val 0 then None  (* leading zero *)
        else
          let val' := val * 10 + (nat_of_ascii c - 48) in
          if Nat.ltb 255 val' then None                 (* value >255 *)
          else parseIPv4_loop rest false false fields val' pos (S digLen)
      else if Ascii.eqb c "."%char then
        if first || (match rest with EmptyString => true | _ => false end)
           || prevDot
        then None                         (* field without a digit *)
        else if Nat.eqb pos 3 then None   (* IPv4 address too long *)
        else parseIPv4_loop rest false true (fields ++ [val]) 0 (S pos) 0
      else None                           (* unexpected character *)
  end.

Definition parseIPv4 (s : string) : option (list nat) :=
  parseIPv4_loop s true false [] 0 0 0.

Definition hexVal (c : ascii) : option nat :=
  let n := nat_of_ascii c in
  if Nat.leb 48 n && Nat.leb n 57 then Some (n - 48)
  else if Nat.leb 97 n && Nat.leb n 102 then Some (n - 97 + 10)
  else if Nat.leb 65 n && Nat.leb n 70 then Some (n - 65 + 10)
  else None.

Inductive HexGroup : Type :=
| HexFail
| HexDone (off acc : nat) (rest : string).

(** The inner loop of [netip.parseIPv6]: one group of hex digits.  [off]
    counts the digits read, [rest] is [s[off:]]. *)
Fixpoint hexGroup (s : string) (off acc : nat) : HexGroup :=
  match s with
  | EmptyString => HexDone off acc s
  | String c rest =>
      match hexVal c with
      | None => HexDone off acc s
      | Some d =>
          let acc' := acc * 16 + d in
          if Nat.ltb 3 off then HexFail            (* more than 4 digits *)
          else if Nat.ltb 65535 acc' then HexFail  (* value >= 2^16 *)
          else hexGroup rest (S off) acc'
      end
  end.

(** The outer loop [for i < 16] of [netip.parseIPv6].  [ip] holds the bytes
    stored so far ([ip[0:i]], so [i] is its length); every pass that does
    not leave the loop adds two bytes, so the guard [i < 16] holds for
    exactly [k = (16 - i) / 2] more passes.  The result is the state at the
    loop's exit: what is left of [s], the bytes and the ellipsis position. *)
Fixpoint parseIPv6_loop (k : nat) (s : string) (ip : list nat)
    (ellipsis : option nat) : option (string * list nat * option nat) :=
  match k with
  | O => Some (s, ip, ellipsis)
  | S k' =>
      let i := List.length ip in
      match hexGroup s 0 0 with
      | HexFail => None
      | HexDone off acc rest =>
          if Nat.eqb off 0 then None      (* no digit in the field *)
          else
            match rest with
            | String "."%char _ =>
                (* trailing IPv4 *)
                if (match ellipsis with None => true | Some _ => false end)
                   && negb (Nat.eqb i 12)
                then None
                else if Nat.ltb 16 (i + 4) then None
                else match parseIPv4 s with
                     | None => None
                     | Some v4 => Some (EmptyString, ip ++ v4, ellipsis)
                     end
            | _ =>
                let ip' := ip ++ [acc / 256; acc mod 256] in
                let i' := i + 2 in
                match rest with
                | EmptyString => Some (EmptyString, ip', ellipsis)
                | String c1 rest1 =>
                    if negb (Ascii.eqb c1 ":"%char) then None
                    else
                      match rest1 with
                      | EmptyString => None   (* colon at the very end *)
                      | String c2 rest2 =>
                          if Ascii.eqb c2 ":"%char then
                            match ellipsis with
                            | Some _ => None  (* multiple :: *)
                            | None =>
                                match rest2 with
                                | EmptyString =>
                                    Some (EmptyString, ip', Some i')
                                | _ => parseIPv6_loop k' rest2 ip' (Some i')
                                end
                            end
                          else parseIPv6_loop k' rest1 ip' ellipsis
                      end
                end
            end
      end
  end.

(** [s[:i], s[i+1:]] for the first index [i] of the byte ['%'], if any. *)
Fixpoint cutZone (s : string) : option (string * string) :=
  match s with
  | EmptyString => None
  | String c rest =>
      if Ascii.eqb c "%"%char then Some (EmptyString, rest)
      else match cutZone rest with
           | Some (a, z) => Some (String c a, z)
           | None => None
           end
  end.

(** [netip.parseIPv6]: the 16 bytes and the zone. *)
Definition parseIPv6 (input : string) : option (list nat * string) :=
  match (match cutZone input with
         | Some (s, zone) =>
             match zone with
             | EmptyString => None        (* empty zone *)
             | _ => Some (s, zone)
             end
         | None => Some (input, EmptyString)
         end) with
  | None => None
  | Some (s, zone) =>
      let '(s, ellipsis) :=
        match s with
        | String ":"%char (String ":"%char s') => (s', Some 0)
        | _ => (s, None)
        end in
      match ellipsis, s with
      | Some _, EmptyString => Some (repeat 0 16, zone)   (* only [::] *)
      | _, _ =>
          match parseIPv6_loop 8 s [] ellipsis with
          | None => None
          | Some (s, ip, ellipsis) =>
              match s with
              | String _ _ => None        (* trailing garbage *)
              | EmptyString =>
                  let i := List.length ip in
                  if Nat.ltb i 16 then
                    match ellipsis with
                    | None => None        (* address string too short *)
                    | Some e =>
                        Some (firstn e ip ++ repeat 0 (16 - i) ++ skipn e ip,
                              zone)
                    end
                  else
                    match ellipsis with
                    | Some _ => None      (* :: must stand for a field *)
                    | None => Some (ip, zone)
                    end
              end
          end
      end
  end.

Inductive Addr : Type :=
| Addr4 (b : list nat)
| Addr6 (b : list nat) (zone : string).

(** [netip.ParseAddr]: the first of ['.'], [':'] and ['%'] picks the parser. *)
Fixpoint ParseAddr_scan (rest whole : string) : option Addr :=
  match rest with
  | EmptyString => None
  | String c rest' =>
      if Ascii.eqb c "."%char then option_map Addr4 (parseIPv4 whole)
      else if Ascii.eqb c ":"%char then
        option_map (fun bz => Addr6 (fst bz) (snd bz)) (parseIPv6 whole)
      else if Ascii.eqb c "%"%char then None
      else ParseAddr_scan rest' whole
  end.

Definition ParseAddr (s : string) : option Addr := ParseAddr_scan s s.

(** [Addr.As16]: an IPv4 address becomes its IPv4-mapped IPv6 form. *)
Definition As16 (a : Addr) : list nat :=
  match a with
  | Addr4 b => repeat 0 10 ++ [255; 255] ++ b
  | Addr6 b _ => b
  end.

(** A Go [net.IP] is a byte slice; [nil] is [None]. *)
Definition IP : Type := list nat.

(** [net.ParseIP]: [netip.ParseAddr], refusing zones, in 16-byte form. *)
Definition ParseIP (s : string) : option IP :=
  match ParseAddr s with
  | Some (Addr6 _ (String _ _)) => None
  | Some a => Some (As16 a)
  | None => None
  end.

(** [IP.To4] *)
Definition To4 (ip : IP) : option IP :=
  if Nat.eqb (List.length ip) 4 then Some ip
  else if Nat.eqb (List.length ip) 16
          && forallb (Nat.eqb 0) (firstn 10 ip)
          && Nat.eqb (nth 10 ip 0) 255
          && Nat.eqb (nth 11 ip 0) 255
  then Some (skipn 12 ip)
  else None.

End net.


(** ** The outside world and the calls a run makes *)

(** A URL handed to [net/http].  The client's URLs are produced by
    [url.JoinPath(base, elem...)]; they are kept as the arguments of that
    call, so the operation, the domain, the record type and the subdomain of
    a request can be read off its URL. *)
Inductive URL : Type :=
| RawURL (s : string)
| JoinPath (base : string) (elem : list string).

(** The request values given to [doRequest] (its type parameter [Req] is
    instantiated with these three types only). *)
Inductive Payload : Type :=
| PingReq (r : api.PingRequest)
| RecordsReq (r : api.RecordsRequest)
| UpdateReq (r : api.UpdateRequest).

(** An argument of a [Printf]-style call, kept next to its format. *)
Inductive Arg : Type :=
| AStr (s : string)
| AInt (n : Z).

(** What a run does that can be observed from outside, in order. *)
Inductive Event : Type :=
| EvLog (format : string) (args : list Arg)   (* log.Printf *)
| EvGet (url : string)                        (* client.Do of the check GET *)
| EvLookupHost (host : string)                (* net.LookupHost *)
| EvCall (u : URL) (req : Payload)            (* doRequest is entered *)
| EvPost (u : URL) (req : Payload).           (* c.client.Do of the POST *)

Definition Trace : Type := list Event.

(** The answers of everything outside the program: the network, the
    resolver, the file system and the library functions whose results are
    not computed here.  A world is fixed during a run. *)
Record World : Type := {
  (* [json.NewEncoder(&buf).Encode(req)]: the error, if any *)
  json_encode_err : Payload -> option string;
  (* [http.NewRequestWithContext(ctx, method, url, body)]: the error, if any *)
  new_request_err : string -> URL -> option string;
  (* [http.Client.Do]: method, URL and request value of the body *)
  http_do : string -> URL -> option Payload -> Res Response;
  (* [json.NewDecoder(body).Decode(resp)] at the four response types *)
  decode_ping : Body -> Res api.PingResponse;
  decode_records : Body -> Res api.RecordsResponse;
  decode_create : Body -> Res api.CreateResponse;
  decode_edit : Body -> Res api.EditResponse;
  (* [net.LookupHost] *)
  lookup_host : string -> Res (list string);
  (* [strings.Map(unicode.ToUpper, s)], used by [strings.ToUpper] outside ASCII *)
  unicode_upper : string -> string;
  (* [os.Getenv], [path.Join] *)
  getenv : string -> string;
  path_join : list string -> string;
  (* [os.Open] followed by reading the file: its content as a stream *)
  os_open : string -> Res Body;
  (* [json.NewDecoder(f).Decode(config)]: domain and keys *)
  decode_config : Body -> Res (string * api.Keys)
}.

(** How a computation ends: it returns, or [log.Fatalf] prints a message
    and stops the process. *)
Inductive Outcome (A : Type) : Type :=
| Ret (a : A)
| Fatal (format : string) (args : list Arg).
Arguments Ret {A} a.
Arguments Fatal {A} format args.

(** A computation reads the world, emits events and ends. *)
Definition M (A : Type) : Type := World -> Outcome A * Trace.

Definition ret {A} (a : A) : M A := fun _ => (Ret a, []).

Definition bind {A B} (m : M A) (f : A -> M B) : M B :=
  fun w =>
    match m w with
    | (Ret a, t1) => let (o, t2) := f a w in (o, t1 ++ t2)
    | (Fatal fmt args, t1) => (Fatal fmt args, t1)
    end.

Definition emit (e : Event) : M unit := fun _ => (Ret tt, [e]).

Definition ask : M World := fun w => (Ret w, []).

(** [log.Printf] *)
Definition Printf (format : string) (args : list Arg) : M unit :=
  emit (EvLog format args).

(** [log.Fatalf] *)
Definition Fatalf {A} (format : string) (args : list Arg) : M A :=
  fun _ => (Fatal format args, []).

Declare Scope go_scope.
Delimit Scope go_scope with go.
Notation "x <- m ;; k" := (bind m (fun x => k))
  (at level 100, m at next level, right associativity) : go_scope.
Notation "m ;;; k" := (bind m (fun _ => k))
  (at level 100, right associativity) : go_scope.
Local Open Scope go_scope.

(** ** Package [porkbun] (src/unnamed/part_001) *)
Module porkbun.

Definition PorkbunApiV3Url : string := "https://api.porkbun.com/api/json/v3/".
Definition PorkbunApiV3Ipv4Url : string :=
  "https://api-ipv4.porkbun.com/api/json/v3/".

Record ClientConfig : Type := {
  Domain : string;
  Keys : api.Keys
}.

(** The [client *http.Client] field is the world's [http_do]. *)
Record Client : Type := {
  BaseURL : string;
  Config : ClientConfig
}.

Definition ReadClientConfig (path : string) : M (Res ClientConfig) :=
  w <- ask ;;
  match os_open w path with
  | Error e => ret (Error ("failed to open config file: " ++ e))
  | OK f =>
      match decode_config w f with
      | Error e => ret (Error ("invalid JSON: " ++ e))
      | OK (d, k) => ret (OK {| Domain := d; Keys := k |})
      end
  end.

Definition NewClient (config : ClientConfig) (useIPV4 : bool) : Client :=
  {| BaseURL := if useIPV4 then PorkbunApiV3Ipv4Url else PorkbunApiV3Url;
     Config := config |}.

(** [c.url(elem...)].  [url.JoinPath] fails only when the base does not
    parse as a URL; the two bases [NewClient] installs do, so the [panic]
    is not modelled. *)
Definition url (c : Client) (elem : list string) : URL :=
  JoinPath (BaseURL c) elem.

(** [doRequest[Resp, Req]]; [decode] is the JSON decoder at type [Resp]. *)
Definition doRequest {Resp : Type} (decode : Body -> Res Resp)
    (c : Client) (u : URL) (req : Payload) : M (Res Resp) :=
  emit (EvCall u req) ;;;
  w <- ask ;;
  match json_encode_err w req with
  | Some e => ret (Error ("cannot marshal request: " ++ e))
  | None =>
      match new_request_err w "POST" u with
      | Some e => ret (Error ("failed to create request: " ++ e))
      | None =>
          emit (EvPost u req) ;;;
          match http_do w "POST" u (Some req) with
          | Error e => ret (Error ("POST failed: " ++ e))
          | OK response =>
              if negb (Z.eqb (StatusCode response) StatusOK) then
                match ReadAll (RespBody response) with
                | Error e =>
                    ret (Error ("response status " ++ Status response
                                ++ " (could not read response body: " ++ e
                                ++ ")"))
                | OK body =>
                    ret (Error ("response status " ++ Status response
                                ++ ". Body: " ++ body ++ ")"))
                end
              else
                match decode (RespBody response) with
                | Error e => ret (Error ("cannot unmarshal response: " ++ e))
                | OK resp => ret (OK resp)
                end
          end
      end
  end.

Definition Ping (c : Client) : M (Res api.PingResponse) :=
  let req := {| api.Ping_Keys := Keys (Config c) |} in
  w <- ask ;;
  doRequest (decode_ping w) c (url c ["ping"]) (PingReq req).

Definition CreateA (c : Client) (subdomain ipv4Address : string)
    : M (Res api.CreateResponse) :=
  let req := {| api.Req_Keys := Keys (Config c);
                api.Req_Name := subdomain;
                api.Req_Type := "A";
                api.Req_Content := ipv4Address;
                api.Req_TTL := EmptyString;
                api.Req_Prio := EmptyString |} in
  w <- ask ;;
  doRequest (decode_create w) c (url c ["dns/create"]) (UpdateReq req).

Definition EditAllA (c : Client) (subdomain ipv4Address : string)
    : M (Res api.EditResponse) :=
  let req := {| api.Req_Keys := Keys (Config c);
                api.Req_Name := EmptyString;
                api.Req_Type := EmptyString;
                api.Req_Content := ipv4Address;
                api.Req_TTL := EmptyString;
                api.Req_Prio := EmptyString |} in
  let u :=
    if String.eqb subdomain EmptyString then
      url c ["dns/editByNameType"; Domain (Config c); "A"]
    else
      url c ["dns/editByNameType"; Domain (Config c); "A"; subdomain] in
  w <- ask ;;
  doRequest (decode_edit w) c u (UpdateReq req).

Definition RetrieveAll (c : Client) : M (Res api.RecordsResponse) :=
  let req := {| api.Records_Keys := Keys (Config c) |} in
  let u := url c ["dns/retrieve"; Domain (Config c)] in
  w <- ask ;;
  doRequest (decode_records w) c u (RecordsReq req).

End porkbun.

(** ** Package [main] (src/cmd/porkbun/main.go) *)
Module main.

Import porkbun.

(** The command-line flags, read once by [flag.Parse]. *)
Record Flags : Type := {
  printRecords : string;
  dyndns : bool;
  ddSubdomain : string;
  ddCheckURL : string;
  timeout : Z
}.

Fixpoint recordExists (records : list api.Record_)
    (typ name content : string) : bool :=
  match records with
  | [] => false
  | r :: rest =>
      if negb (String.eqb (api.Type_ r) typ) then
        recordExists rest typ name content
      else if String.eqb (api.Name r) name
              && String.eqb (api.Content r) content
      then true
      else recordExists rest typ name content
  end.

Definition dotjoin (subdom domain : string) : string :=
  if String.eqb subdom EmptyString then domain
  else subdom ++ "." ++ domain.

(** [for _, addr := range addrs { if addr == currentIP { ... return } }]:
    whether the loop takes its [return]. *)
Fixpoint addrMatches (addrs : list string) (currentIP : string) : bool :=
  match addrs with
  | [] => false
  | addr :: rest =>
      if String.eqb addr currentIP then true else addrMatches rest currentIP
  end.

(** The first block of [doDynDNSUpdate]: [true] when the function takes
    the [return] of the check-URL path. *)
Definition checkURL (fl : Flags) : M bool :=
  if negb (String.eqb (ddCheckURL fl) EmptyString) then
    w <- ask ;;
    match new_request_err w "GET" (RawURL (ddCheckURL fl)) with
    | Some e =>
        Fatalf "Cannot create GET request for %s: %v"
               [AStr (ddCheckURL fl); AStr e]
    | None =>
        emit (EvGet (ddCheckURL fl)) ;;;
        match http_do w "GET" (RawURL (ddCheckURL fl)) None with
        | OK r =>
            let n := CopyDiscard (RespBody r) in
            Printf "URL check for %s successful (%s, %d bytes). Skipping DNS update."
                   [AStr (ddCheckURL fl); AStr (Status r); AInt n] ;;;
            ret true
        | Error e =>
            Printf "URL check for %s failed: %v" [AStr (ddCheckURL fl); AStr e] ;;;
            ret false
        end
    end
  else ret false.

Definition doDynDNSUpdate (fl : Flags) (client : Client)
    (records : list api.Record_) : M unit :=
  skip <- checkURL fl ;;
  if (skip : bool) then ret tt
  else
    (* Get own IP. *)
    ping <- Ping client ;;
    match ping with
    | Error e => Fatalf "Ping failed: %v" [AStr e]
    | OK ping =>
        let currentIP := api.YourIP ping in
        Printf ("Your IP: %s" ++ LF) [AStr currentIP] ;;;
        let domain := dotjoin (ddSubdomain fl) (Domain (Config client)) in
        w <- ask ;;
        emit (EvLookupHost domain) ;;;
        match lookup_host w domain with
        | Error e =>
            Printf "Failed to look up %q: %v" [AStr domain; AStr e] ;;;
            Fatalf "Please set up an A record before running in -dyndns mode" []
        | OK addrs =>
            if addrMatches addrs currentIP then
              Printf "Current IP %s matches public DNS record for %q. No update required."
                     [AStr currentIP; AStr domain]
            else if recordExists records "A" domain currentIP then
              Printf "An A record for %s with IP %s already exists. No update required."
                     [AStr domain; AStr currentIP]
            else
              match (match net.ParseIP currentIP with
                     | None => None
                     | Some ip => net.To4 ip
                     end) with
              | None =>
                  Fatalf "Not a valid IPv4 address: %s" [AStr currentIP]
              | Some _ =>
                  r <- EditAllA client (ddSubdomain fl) currentIP ;;
                  match r with
                  | Error e => Fatalf "Failed to update A record: %v" [AStr e]
                  | OK _ =>
                      Printf "Updated A record for %s to %s"
                             [AStr (Domain (Config client)); AStr currentIP]
                  end
              end
        end
    end.

(** The first loop of [doPrintRecords]: [includeAll] and the [include] map
    (a Go [map[string]bool], whose lookup of a missing key gives [false]). *)
Fixpoint includeLoop (w : World) (items : list string)
    (includeAll : bool) (include : string -> bool) : bool * (string -> bool) :=
  match items with
  | [] => (includeAll, include)
  | incl :: rest =>
      if String.eqb incl "all" then includeLoop w rest true include
      else
        let key := strings.ToUpper (unicode_upper w) incl in
        includeLoop w rest includeAll
          (fun k => if String.eqb k key then true else include k)
  end.

(** The second loop of [doPrintRecords]. *)
Fixpoint recordLinesLoop (records : list api.Record_)
    (includeAll : bool) (include : string -> bool) : list string :=
  match records with
  | [] => []
  | r :: rest =>
      if includeAll || include (api.Type_ r) then
        api.Record_String r :: recordLinesLoop rest includeAll include
      else recordLinesLoop rest includeAll include
  end.

Definition doPrintRecords (fl : Flags) (client : Client)
    : M (list api.Record_) :=
  w <- ask ;;
  let '(includeAll, include) :=
    includeLoop w (strings.Split (printRecords fl) ","%char)
                false (fun _ => false) in
  recordsResp <- RetrieveAll client ;;
  match recordsResp with
  | Error e => Fatalf "RetrieveAll failed: %v" [AStr e]
  | OK recordsResp =>
      let records := api.Records recordsResp in
      let recordLines := recordLinesLoop records includeAll include in
      Printf ("Your records:" ++ LF ++ "%s") [AStr (strings.Join recordLines LF)] ;;;
      ret records
  end.

Definition main (fl : Flags) : M unit :=
  w <- ask ;;
  let configFile := path_join w [getenv w "HOME"; ".porkbungo"] in
  config <- ReadClientConfig configFile ;;
  match config with
  | Error e => Fatalf "Cannot read config: %v" [AStr e]
  | OK config =>
      Printf "Read config from %s. Running for domain %q."
             [AStr configFile; AStr (Domain config)] ;;;
      let client := NewClient config true in
      records <-
        (if negb (String.eqb (printRecords fl) EmptyString)
         then doPrintRecords fl client
         else ret []) ;;
      if dyndns fl then doDynDNSUpdate fl client records
      else ret tt
  end.

End main.

(** ** Vocabulary of the properties *)

Import porkbun main.

(** The operation a client URL addresses: the first path element given to
    [url.JoinPath]. *)
Definition operation (u : URL) : string :=
  match u with
  | JoinPath _ (op :: _) => op
  | _ => EmptyString
  end.

(** A write call is a request to create or to edit records. *)
Definition isWrite (e : Event) : bool :=
  match e with
  | EvCall u _ =>
      String.eqb (operation u) "dns/editByNameType"
      || String.eqb (operation u) "dns/create"
  | _ => false
  end.

Definition isPing (e : Event) : bool :=
  match e with
  | EvCall u _ => String.eqb (operation u) "ping"
  | _ => false
  end.

Definition isLookup (e : Event) : bool :=
  match e with
  | EvLookupHost _ => true
  | _ => false
  end.

Definition isPost (e : Event) : bool :=
  match e with
  | EvPost _ _ => true
  | _ => false
  end.

Definition writes (t : Trace) : Trace := filter isWrite t.
Definition pings (t : Trace) : Trace := filter isPing t.
Definition lookups (t : Trace) : Trace := filter isLookup t.
Definition posts (t : Trace) : Trace := filter isPost t.

(** A trace without API calls and without lookups. *)
Definition quiet (t : Trace) : Prop :=
  writes t = [] /\ pings t = [] /\ lookups t = [] /\ posts t = [].

(** The health check answers: a URL is configured, the GET request can be
    built and the transport returns a response (of any status). *)
Definition healthCheckAnswers (w : World) (fl : Flags) : Prop :=
  ddCheckURL fl <> EmptyString /\
  new_request_err w "GET" (RawURL (ddCheckURL fl)) = None /\
  exists r, http_do w "GET" (RawURL (ddCheckURL fl)) None = OK r.

(** The health check is not configured, or its GET fails in the transport. *)
Definition healthCheckSilent (w : World) (fl : Flags) : Prop :=
  ddCheckURL fl = EmptyString \/
  (new_request_err w "GET" (RawURL (ddCheckURL fl)) = None /\
   exists e, http_do w "GET" (RawURL (ddCheckURL fl)) None = Error e).

(** Ping succeeds with the given answer. *)
Definition pingSucceeds (w : World) (c : Client) (p : api.PingResponse) : Prop :=
  fst (Ping c w) = Ret (OK p).

(** The check of [doDynDNSUpdate] before its write:
    [ip != nil && ip.To4() != nil]. *)
Definition passesIPv4Check (s : string) : bool :=
  match net.ParseIP s with
  | None => false
  | Some ip => match net.To4 ip with None => false | Some _ => true end
  end.

(** The decimal numeral of a number, without leading zeros. *)
Definition decimal (n : nat) : string :=
  NilEmpty.string_of_uint (Nat.to_uint n).

Definition dottedQuad (a b c d : nat) : string :=
  decimal a ++ "." ++ decimal b ++ "." ++ decimal c ++ "." ++ decimal d.

(** A syntactically valid IPv4 address: four decimal octets joined by dots. *)
Definition IPv4Literal (s : string) : Prop :=
  exists a b c d,
    a < 256 /\ b < 256 /\ c < 256 /\ d < 256 /\ s = dottedQuad a b c d.

(** The single write call of the update: [EditAllA] for the subdomain and
    the address, as [doRequest] receives it. *)
Definition editCall (c : Client) (subdomain ip : string) : Event :=
  EvCall
    (JoinPath (BaseURL c)
       ("dns/editByNameType" :: Domain (Config c) :: "A"
          :: (if String.eqb subdomain EmptyString then [] else [subdomain])))
    (UpdateReq {| api.Req_Keys := Keys (Config c);
                  api.Req_Name := EmptyString;
                  api.Req_Type := EmptyString;
                  api.Req_Content := ip;
                  api.Req_TTL := EmptyString;
                  api.Req_Prio := EmptyString |}).

(** Every short-circuit of [doDynDNSUpdate] is passed and the address is
    accepted: the run arrives at [EditAllA]. *)
Definition reachesWrite (w : World) (fl : Flags) (c : Client)
    (records : list api.Record_) : Prop :=
  healthCheckSilent w fl /\
  exists p addrs,
    pingSucceeds w c p /\
    lookup_host w (dotjoin (ddSubdomain fl) (Domain (Config c))) = OK addrs /\
    addrMatches addrs (api.YourIP p) = false /\
    recordExists records "A" (dotjoin (ddSubdomain fl) (Domain (Config c)))
                 (api.YourIP p) = false /\
    passesIPv4Check (api.YourIP p) = true.

(** Two runs of the procedure, one after the other, as two processes in a
    world that does not change: what each run ends with and what it does. *)
Definition twoRuns (fl : Flags) (c : Client) (records : list api.Record_)
    (w : World) : (Outcome unit * Trace) * (Outcome unit * Trace) :=
  let first := doDynDNSUpdate fl c records w in
  let second := doDynDNSUpdate fl c records w in
  (first, second).

(** [sub] occurs in [s]. *)
Definition Contains (s sub : string) : Prop :=
  exists pre post : string, s = (pre ++ sub ++ post)%string.

Fixpoint isPrefix (p s : string) : bool :=
  match p, s with
  | EmptyString, _ => true
  | String a p', String b s' => Ascii.eqb a b && isPrefix p' s'
  | String _ _, EmptyString => false
  end.

Fixpoint containsb (s sub : string) : bool :=
  isPrefix sub s ||
  match s with
  | EmptyString => false
  | String _ s' => containsb s' sub
  end.

(** The record listing as the specification words it: a record is listed
    when its type is one of the supplied names, or when [all] is supplied. *)
Definition specListed (names : list string) (r : api.Record_) : bool :=
  existsb (String.eqb "all") names
  || existsb (String.eqb (api.Type_ r)) names.

Definition specLines (names : list string) (records : list api.Record_)
    : list string :=
  map api.Record_String (filter (specListed names) records).

(** The record listing as the code selects: the type equals the upper-cased
    form of a supplied name, or [all] is supplied. *)
Definition listed (w : World) (names : list string) (r : api.Record_) : bool :=
  existsb (String.eqb "all") names
  || existsb (fun n => String.eqb (api.Type_ r)
                         (strings.ToUpper (unicode_upper w) n)) names.

(** The single [log.Printf] of the listing. *)
Definition listingEvent (lines : list string) : Event :=
  EvLog ("Your records:" ++ LF ++ "%s") [AStr (strings.Join lines LF)].

(** The digits of an octet as [parseIPv4_loop] reads them: the value and
    the digit count after the last digit, when no check fails. *)
Fixpoint digitsRun (ds : string) (val digLen : nat) : option (nat * nat) :=
  match ds with
  | EmptyString => Some (val, digLen)
  | String c rest =>
      if net.isDigit c then
        if Nat.eqb digLen 1 && Nat.eqb val 0 then None
        else
          let val' := val * 10 + (nat_of_ascii c - 48) in
          if Nat.ltb 255 val' then None
          else digitsRun rest val' (S digLen)
      else None
  end.

(** ** Concrete worlds, used to run the program on examples *)

Definition exampleKeys : api.Keys :=
  {| api.SecretAPIKey := "sk1_secret"; api.APIKey := "pk1_key" |}.

Definition exampleConfig : ClientConfig :=
  {| Domain := "example.com"; Keys := exampleKeys |}.

Definition exampleClient : Client := NewClient exampleConfig true.

Definition success : api.Status :=
  {| api.Status_Status := "SUCCESS"; api.Status_Message := EmptyString |}.

Definition response (code : Z) (status : string) (body : Body) : Response :=
  {| StatusCode := code; Status := status; RespBody := body |}.

Definition ok200 : Response := response 200 "200 OK" (Readable "{}").

(** A world in which the check URL answers [check], the edit operation
    answers [edit], every other API request gets a 200, ping reports
    [yourIP], the resolver answers [addrs] and the domain holds [records]. *)
Definition exampleWorld (check edit : Res Response) (yourIP : string)
    (addrs : Res (list string)) (records : list api.Record_) : World :=
  {| json_encode_err := fun _ => None;
     new_request_err := fun _ _ => None;
     http_do := fun _ u _ =>
       match u with
       | RawURL _ => check
       | JoinPath _ _ =>
           if String.eqb (operation u) "dns/editByNameType" then edit
           else OK ok200
       end;
     decode_ping := fun _ =>
       OK {| api.Ping_Status := success; api.YourIP := yourIP |};
     decode_records := fun _ =>
       OK {| api.Records_Status := success; api.Records := records |};
     decode_create := fun _ =>
       OK {| api.Create_Status := success; api.Create_ID := "1" |};
     decode_edit := fun _ => OK {| api.Edit_Status := success |};
     lookup_host := fun _ => addrs;
     unicode_upper := fun s => s;
     getenv := fun _ => "/home/user";
     path_join := fun elem => strings.Join elem "/";
     os_open := fun _ => OK (Readable "{}");
     decode_config := fun _ => OK ("example.com", exampleKeys) |}.

Definition refused : Res Response := Error "connection refused".

Definition flags (print : string) (dyn : bool) (sub check : string) : Flags :=
  {| printRecords := print; dyndns := dyn; ddSubdomain := sub;
     ddCheckURL := check; timeout := 60000000000 |}.

Definition record (name typ content : string) : api.Record_ :=
  {| api.ID := "42"; api.Name := name; api.Type_ := typ;
     api.Content := content; api.TTL := "600"; api.Prio := "0";
     api.Notes := EmptyString |}.

(** The public address has changed and the resolver still gives the old one. *)
Definition staleWorld : World :=
  exampleWorld refused (OK ok200) "203.0.113.7" (OK ["198.51.100.1"]) [].

(** The same, with a provider that refuses the edit. *)
Definition refusingWorld : World :=
  exampleWorld refused (OK (response 503 "503 Service Unavailable"
                                     (Readable "busy")))
               "203.0.113.7" (OK ["198.51.100.1"]) [].

(** Ping reports an IPv4-mapped IPv6 literal. *)
Definition mappedWorld : World :=
  exampleWorld refused (OK ok200) "::ffff:1.2.3.4" (OK ["198.51.100.1"]) [].

(** The provider answers 502 and the connection breaks inside the body. *)
Definition brokenBodyWorld : World :=
  exampleWorld refused
    (OK (response 502 "502 Bad Gateway"
                  (Broken "upstream unavailable" "unexpected EOF")))
    "203.0.113.7" (OK ["198.51.100.1"]) [].

(** ** Further vocabulary: the shape of a trace *)

Definition isGet (e : Event) : bool :=
  match e with
  | EvGet _ => true
  | _ => false
  end.

Definition gets (t : Trace) : Trace := filter isGet t.

(** A request, call or POST, to the create operation. *)
Definition isCreate (e : Event) : bool :=
  match e with
  | EvCall u _ => String.eqb (operation u) "dns/create"
  | EvPost u _ => String.eqb (operation u) "dns/create"
  | _ => false
  end.



(** URL and request value of each client method. *)
Definition pingURL (c : Client) : URL := JoinPath (BaseURL c) ["ping"].

Definition pingRequest (c : Client) : Payload :=
  PingReq {| api.Ping_Keys := Keys (Config c) |}.

Definition retrieveURL (c : Client) : URL :=
  JoinPath (BaseURL c) ["dns/retrieve"; Domain (Config c)].

Definition retrieveRequest (c : Client) : Payload :=
  RecordsReq {| api.Records_Keys := Keys (Config c) |}.

Definition createURL (c : Client) : URL := JoinPath (BaseURL c) ["dns/create"].

Definition createRequest (c : Client) (subdomain ip : string) : Payload :=
  UpdateReq {| api.Req_Keys := Keys (Config c);
               api.Req_Name := subdomain;
               api.Req_Type := "A";
               api.Req_Content := ip;
               api.Req_TTL := EmptyString;
               api.Req_Prio := EmptyString |}.

Definition editURL (c : Client) (subdomain : string) : URL :=
  JoinPath (BaseURL c)
    ("dns/editByNameType" :: Domain (Config c) :: "A"
       :: (if String.eqb subdomain EmptyString then [] else [subdomain])).

Definition editRequest (c : Client) (ip : string) : Payload :=
  UpdateReq {| api.Req_Keys := Keys (Config c);
               api.Req_Name := EmptyString;
               api.Req_Type := EmptyString;
               api.Req_Content := ip;
               api.Req_TTL := EmptyString;
               api.Req_Prio := EmptyString |}.

(** The events of one [doRequest]: the call, then the POST if it is reached. *)
Definition requestPart (u : URL) (req : Payload) (t : Trace) : Prop :=
  t = [EvCall u req] \/ t = [EvCall u req; EvPost u req].

(** The pieces a run of [doDynDNSUpdate] is made of, each possibly absent. *)
Definition checkPart (fl : Flags) (t : Trace) : Prop :=
  t = [] \/ exists f a, t = [EvGet (ddCheckURL fl); EvLog f a].

Definition pingPart (c : Client) (t : Trace) : Prop :=
  t = [] \/ requestPart (pingURL c) (pingRequest c) t.

Definition lookupPart (fl : Flags) (c : Client) (t : Trace) : Prop :=
  t = [] \/
  exists f a,
    t = [EvLog f a;
         EvLookupHost (dotjoin (ddSubdomain fl) (Domain (Config c)))].

Definition editPart (fl : Flags) (c : Client) (t : Trace) : Prop :=
  t = [] \/
  exists ip, requestPart (editURL c (ddSubdomain fl)) (editRequest c ip) t.

Definition logPart (t : Trace) : Prop :=
  t = [] \/ exists f a, t = [EvLog f a].

(** The log line [main] writes after reading the configuration. *)
Definition configEvent (w : World) (d : string) : Event :=
  EvLog "Read config from %s. Running for domain %q."
        [AStr (path_join w [getenv w "HOME"; ".porkbungo"]); AStr d].

(** The listing of [names] over [records], as the second loop builds it. *)
Definition listing (w : World) (names : list string)
    (records : list api.Record_) : list string :=
  map api.Record_String (filter (listed w names) records).

(** Worlds that differ from a given one in a single answer. *)
Definition withHttp (w : World)
    (h : string -> URL -> option Payload -> Res Response) : World :=
  {| json_encode_err := json_encode_err w;
     new_request_err := new_request_err w;
     http_do := h;
     decode_ping := decode_ping w;
     decode_records := decode_records w;
     decode_create := decode_create w;
     decode_edit := decode_edit w;
     lookup_host := lookup_host w;
     unicode_upper := unicode_upper w;
     getenv := getenv w;
     path_join := path_join w;
     os_open := os_open w;
     decode_config := decode_config w |}.

Definition withConfigFile (w : World) (opened : Res Body)
    (decoded : Res (string * api.Keys)) : World :=
  {| json_encode_err := json_encode_err w;
     new_request_err := new_request_err w;
     http_do := http_do w;
     decode_ping := decode_ping w;
     decode_records := decode_records w;
     decode_create := decode_create w;
     decode_edit := decode_edit w;
     lookup_host := lookup_host w;
     unicode_upper := unicode_upper w;
     getenv := getenv w;
     path_join := path_join w;
     os_open := fun _ => opened;
     decode_config := fun _ => decoded |}.

Definition withRequestErrors (w : World)
    (enc : Payload -> option string)
    (create : string -> URL -> option string) : World :=
  {| json_encode_err := enc;
     new_request_err := create;
     http_do := http_do w;
     decode_ping := decode_ping w;
     decode_records := decode_records w;
     decode_create := decode_create w;
     decode_edit := decode_edit w;
     lookup_host := lookup_host w;
     unicode_upper := unicode_upper w;
     getenv := getenv w;
     path_join := path_join w;
     os_open := os_open w;
     decode_config := decode_config w |}.

(** The provider cannot be reached at all. *)
Definition offlineWorld : World :=
  withHttp staleWorld (fun _ _ _ => Error "dial tcp: no route to host").

(** * Properties *)

(** ** The monad *)

Lemma writes_app (t1 t2 : Trace) : writes (t1 ++ t2) = writes t1 ++ writes t2.
Proof. apply filter_app. Qed.

Lemma pings_app (t1 t2 : Trace) : pings (t1 ++ t2) = pings t1 ++ pings t2.
Proof. apply filter_app. Qed.

Lemma lookups_app (t1 t2 : Trace) :
  lookups (t1 ++ t2) = lookups t1 ++ lookups t2.
Proof. apply filter_app. Qed.

Lemma posts_app (t1 t2 : Trace) : posts (t1 ++ t2) = posts t1 ++ posts t2.
Proof. apply filter_app. Qed.

(** ** [recordExists] and [dotjoin] *)

Lemma recordExists_true (R : list api.Record_) (typ name content : string) :
  recordExists R typ name content = true <->
  exists r, In r R /\ api.Type_ r = typ /\ api.Name r = name
            /\ api.Content r = content.
Proof.
  induction R as [|r R IH]; simpl.
  - split; [discriminate | intros [r [[] _]]].
  - destruct (String.eqb_spec (api.Type_ r) typ) as [Ht|Ht]; simpl.
    + destruct (String.eqb_spec (api.Name r) name) as [Hn|Hn]; simpl.
      * destruct (String.eqb_spec (api.Content r) content) as [Hc|Hc].
        -- split; [intros _; exists r; auto | reflexivity].
        -- rewrite IH. split.
           ++ intros [r' [Hin H]]. exists r'. auto.
           ++ intros [r' [[->|Hin] [H1 [H2 H3]]]]; [contradiction|].
              exists r'. auto.
      * rewrite IH. split.
        -- intros [r' [Hin H]]. exists r'. auto.
        -- intros [r' [[->|Hin] [H1 [H2 H3]]]]; [contradiction|].
           exists r'. auto.
    + rewrite IH. split.
      * intros [r' [Hin H]]. exists r'. auto.
      * intros [r' [[->|Hin] [H1 [H2 H3]]]]; [contradiction|].
        exists r'. auto.
Qed.

Lemma recordExists_false (R : list api.Record_) (typ name content : string) :
  (forall r, In r R ->
     ~ (api.Type_ r = typ /\ api.Name r = name /\ api.Content r = content)) ->
  recordExists R typ name content = false.
Proof.
  intros H. destruct (recordExists R typ name content) eqn:E; [|reflexivity].
  apply recordExists_true in E. destruct E as [r [Hin Hr]].
  exfalso. exact (H r Hin Hr).
Qed.

(** C3. [recordExists] returns true exactly when some record of the list
    has its Type, Name and Content fields equal, as strings, to the given
    type, name and content; on the empty list it returns false. *)
Theorem recordExists_iff_some_record_matches :
  forall (R : list api.Record_) (typ name content : string),
    (recordExists R typ name content = true <->
     exists r, In r R /\ api.Type_ r = typ /\ api.Name r = name
               /\ api.Content r = content)
    /\ recordExists [] typ name content = false.
Proof.
  intros R typ name content. split.
  - apply recordExists_true.
  - reflexivity.
Qed.

(** C8. [dotjoin] with an empty subdomain gives the domain; with a
    non-empty subdomain it gives subdomain, dot, domain; so the root of
    example.com stays example.com and www joins to www.example.com. *)
Theorem dotjoin_builds_the_qualified_name :
  (forall d : string, dotjoin EmptyString d = d)
  /\ (forall s d : string, s <> EmptyString -> dotjoin s d = (s ++ "." ++ d)%string)
  /\ dotjoin EmptyString "example.com" = "example.com"
  /\ dotjoin "www" "example.com" = "www.example.com".
Proof.
  repeat split.
  intros s d Hs. unfold dotjoin.
  destruct (String.eqb_spec s EmptyString) as [E|E]; [contradiction|reflexivity].
Qed.

(** ** The request helper *)

Lemma isPrefix_append (p s : string) : isPrefix p (p ++ s) = true.
Proof.
  induction p as [|a p IH]; simpl; [reflexivity|].
  now rewrite Ascii.eqb_refl.
Qed.

Lemma Contains_containsb (s sub : string) :
  Contains s sub -> containsb s sub = true.
Proof.
  intros [pre [post ->]].
  induction pre as [|a pre IH]; simpl.
  - pose proof (isPrefix_append sub post) as Hp.
    destruct (sub ++ post)%string; simpl; rewrite Hp; reflexivity.
  - rewrite IH. apply orb_true_r.
Qed.

Lemma Contains_in_message (a s b body c : string) :
  Contains (a ++ s ++ b ++ body ++ c) body.
Proof.
  exists (a ++ s ++ b)%string, c.
  induction a as [|x a IH]; simpl.
  - induction s as [|y s IHs]; simpl; [reflexivity|]. now rewrite IHs.
  - now rewrite IH.
Qed.

(** What [doRequest] does, branch by branch. *)
Lemma doRequest_unfold {Resp : Type} (decode : Body -> Res Resp)
    (c : Client) (u : URL) (req : Payload) (w : World) :
  doRequest decode c u req w =
  match json_encode_err w req with
  | Some e => (Ret (Error ("cannot marshal request: " ++ e)), [EvCall u req])
  | None =>
      match new_request_err w "POST" u with
      | Some e =>
          (Ret (Error ("failed to create request: " ++ e)), [EvCall u req])
      | None =>
          (Ret
             match http_do w "POST" u (Some req) with
             | Error e => Error ("POST failed: " ++ e)
             | OK response =>
                 if negb (Z.eqb (StatusCode response) StatusOK) then
                   match ReadAll (RespBody response) with
                   | Error e =>
                       Error ("response status " ++ Status response
                              ++ " (could not read response body: " ++ e
                              ++ ")")
                   | OK body =>
                       Error ("response status " ++ Status response
                              ++ ". Body: " ++ body ++ ")")
                   end
                 else
                   match decode (RespBody response) with
                   | Error e => Error ("cannot unmarshal response: " ++ e)
                   | OK resp => OK resp
                   end
             end,
           [EvCall u req; EvPost u req])
      end
  end.
Proof.
  unfold doRequest, bind, emit, ask, ret.
  destruct (json_encode_err w req); [reflexivity|].
  destruct (new_request_err w "POST" u); [reflexivity|].
  destruct (http_do w "POST" u (Some req)) as [r|e]; [|reflexivity].
  destruct (negb (StatusCode r =? StatusOK)%Z).
  - destruct (ReadAll (RespBody r)); reflexivity.
  - destruct (decode (RespBody r)); reflexivity.
Qed.

(** [doRequest] always returns to its caller, after the call event and at
    most one POST. *)
Lemma doRequest_returns {Resp : Type} (decode : Body -> Res Resp)
    (c : Client) (u : URL) (req : Payload) (w : World) :
  exists r,
    fst (doRequest decode c u req w) = Ret r /\
    (snd (doRequest decode c u req w) = [EvCall u req]
     \/ snd (doRequest decode c u req w) = [EvCall u req; EvPost u req]).
Proof.
  rewrite doRequest_unfold.
  destruct (json_encode_err w req); [eexists; simpl; eauto|].
  destruct (new_request_err w "POST" u); eexists; simpl; eauto.
Qed.

Lemma doRequest_posts_once {Resp : Type} (decode : Body -> Res Resp)
    (c : Client) (u : URL) (req : Payload) (w : World) :
  List.length (posts (snd (doRequest decode c u req w))) <= 1.
Proof.
  destruct (doRequest_returns decode c u req w) as [r [_ [H|H]]];
    rewrite H; simpl; lia.
Qed.

(** C7 (amended). For a remote API call whose request has been encoded and
    whose HTTP request has been created, the helper returns to its caller,
    and returns an error exactly when the transport fails, the status is not
    200, or the body cannot be decoded; for a status other than 200 the error
    holds the raw body when the body could be read, and reports the read
    failure when it could not; the POST is made at most once. *)
Theorem doRequest_error_cases :
  forall (Resp : Type) (decode : Body -> Res Resp) (c : Client) (u : URL)
         (req : Payload) (w : World),
    json_encode_err w req = None ->
    new_request_err w "POST" u = None ->
    exists r : Res Resp,
      fst (doRequest decode c u req w) = Ret r
      /\ ((exists e, r = Error e) <->
          (exists e, http_do w "POST" u (Some req) = Error e)
          \/ (exists resp, http_do w "POST" u (Some req) = OK resp
                /\ (StatusCode resp <> 200%Z
                    \/ exists e, decode (RespBody resp) = Error e)))
      /\ (forall resp body,
            http_do w "POST" u (Some req) = OK resp ->
            StatusCode resp <> 200%Z ->
            ReadAll (RespBody resp) = OK body ->
            exists e, r = Error e /\ Contains e body)
      /\ (forall resp err,
            http_do w "POST" u (Some req) = OK resp ->
            StatusCode resp <> 200%Z ->
            ReadAll (RespBody resp) = Error err ->
            r = Error ("response status " ++ Status resp
                       ++ " (could not read response body: " ++ err ++ ")"))
      /\ List.length (posts (snd (doRequest decode c u req w))) <= 1.
Proof.
  intros Resp decode c u req w Henc Hnew.
  pose proof (doRequest_posts_once decode c u req w) as Hposts.
  rewrite doRequest_unfold in *. rewrite Henc, Hnew in *.
  eexists. split; [reflexivity|].
  destruct (http_do w "POST" u (Some req)) as [resp|e] eqn:Hdo.
  - unfold StatusOK.
    destruct (Z.eqb_spec (StatusCode resp) 200) as [Hs|Hs]; simpl.
    + repeat split.
      * intros [e He]. right. exists resp. split; [reflexivity|]. right.
        destruct (decode (RespBody resp)) as [a|e']; [discriminate|].
        now exists e'.
      * intros [[e He]|[resp' [Hr [Hne|[e He]]]]].
        -- discriminate.
        -- injection Hr as <-. contradiction.
        -- injection Hr as <-. rewrite He. eauto.
      * intros resp' body Hr Hne. injection Hr as <-. contradiction.
      * intros resp' err Hr Hne. injection Hr as <-. contradiction.
      * exact Hposts.
    + repeat split.
      * intros _. right. exists resp. auto.
      * intros _. destruct (ReadAll (RespBody resp)); eauto.
      * intros resp' body Hr _ Hb. injection Hr as <-. rewrite Hb.
        eexists. split; [reflexivity|].
        exact (Contains_in_message "response status " (Status resp)
                 ". Body: " body ")").
      * intros resp' err Hr _ Hb. injection Hr as <-. now rewrite Hb.
      * exact Hposts.
  - repeat split.
    + intros _. left. eauto.
    + intros _. eauto.
    + intros resp' body Hr. discriminate.
    + intros resp' err Hr. discriminate.
    + exact Hposts.
Qed.

(** C7 (as stated, refuted). The edit call in a world where the provider
    answers 502 and the body breaks off after "upstream unavailable": the
    status is not 200, and the returned error holds nothing of the body. *)
Lemma doRequest_unread_body_is_not_reported :
  exists resp e,
    http_do brokenBodyWorld "POST"
      (url exampleClient ["dns/editByNameType"; "example.com"; "A"; "www"])
      (Some (UpdateReq {| api.Req_Keys := exampleKeys;
                          api.Req_Name := EmptyString;
                          api.Req_Type := EmptyString;
                          api.Req_Content := "203.0.113.7";
                          api.Req_TTL := EmptyString;
                          api.Req_Prio := EmptyString |})) = OK resp
    /\ StatusCode resp <> 200%Z
    /\ RespBody resp = Broken "upstream unavailable" "unexpected EOF"
    /\ fst (EditAllA exampleClient "www" "203.0.113.7" brokenBodyWorld)
       = Ret (Error e)
    /\ ~ Contains e "upstream unavailable".
Proof.
  eexists. eexists.
  split; [reflexivity|]. split; [discriminate|]. split; [reflexivity|].
  split; [reflexivity|].
  intros H. apply Contains_containsb in H. vm_compute in H. discriminate.
Qed.

Lemma doRequest_error_cases_witness :
  exists r : Res api.EditResponse,
    fst (doRequest (decode_edit refusingWorld) exampleClient
           (url exampleClient ["dns/editByNameType"; "example.com"; "A"; "www"])
           (UpdateReq {| api.Req_Keys := exampleKeys;
                         api.Req_Name := EmptyString;
                         api.Req_Type := EmptyString;
                         api.Req_Content := "203.0.113.7";
                         api.Req_TTL := EmptyString;
                         api.Req_Prio := EmptyString |})
           refusingWorld) = Ret r
    /\ exists e, r = Error e /\ Contains e "busy".
Proof.
  destruct (doRequest_error_cases api.EditResponse
              (decode_edit refusingWorld) exampleClient
              (url exampleClient ["dns/editByNameType"; "example.com"; "A"; "www"])
              (UpdateReq {| api.Req_Keys := exampleKeys;
                            api.Req_Name := EmptyString;
                            api.Req_Type := EmptyString;
                            api.Req_Content := "203.0.113.7";
                            api.Req_TTL := EmptyString;
                            api.Req_Prio := EmptyString |})
              refusingWorld eq_refl eq_refl)
    as [r [Hr [_ [Hbody _]]]].
  exists r. split; [exact Hr|].
  apply (Hbody (response 503 "503 Service Unavailable" (Readable "busy")));
    [reflexivity | discriminate | reflexivity].
Defined.

(** ** The update decision procedure *)

Lemma bind_ask {A : Type} (f : World -> M A) (w : World) :
  bind ask f w = f w w.
Proof. unfold bind, ask. destruct (f w w). reflexivity. Qed.

Lemma passesIPv4Check_match {A : Type} (s : string) (x y : A) :
  match (match net.ParseIP s with
         | None => None
         | Some ip => net.To4 ip
         end) with
  | None => x
  | Some _ => y
  end = if passesIPv4Check s then y else x.
Proof.
  unfold passesIPv4Check. destruct (net.ParseIP s) as [ip|]; [|reflexivity].
  destruct (net.To4 ip); reflexivity.
Qed.

Lemma addrMatches_In (addrs : list string) (ip : string) :
  addrMatches addrs ip = true <-> In ip addrs.
Proof.
  induction addrs as [|a addrs IH]; simpl.
  - split; [discriminate | contradiction].
  - destruct (String.eqb_spec a ip) as [E|E].
    + split; auto.
    + rewrite IH. split; [auto | intros [H|H]; [contradiction | exact H]].
Qed.

(** The four ways through the check-URL block. *)
Lemma checkURL_unset (fl : Flags) (w : World) :
  ddCheckURL fl = EmptyString -> checkURL fl w = (Ret false, []).
Proof. intros H. unfold checkURL. now rewrite H. Qed.

Lemma checkURL_not_created (fl : Flags) (w : World) (e : string) :
  ddCheckURL fl <> EmptyString ->
  new_request_err w "GET" (RawURL (ddCheckURL fl)) = Some e ->
  checkURL fl w =
  (Fatal "Cannot create GET request for %s: %v" [AStr (ddCheckURL fl); AStr e],
   []).
Proof.
  intros Hu Hn. unfold checkURL.
  destruct (String.eqb_spec (ddCheckURL fl) EmptyString); [contradiction|].
  simpl. rewrite bind_ask, Hn. reflexivity.
Qed.

Lemma checkURL_answered (fl : Flags) (w : World) (r : Response) :
  ddCheckURL fl <> EmptyString ->
  new_request_err w "GET" (RawURL (ddCheckURL fl)) = None ->
  http_do w "GET" (RawURL (ddCheckURL fl)) None = OK r ->
  checkURL fl w =
  (Ret true,
   [EvGet (ddCheckURL fl);
    EvLog "URL check for %s successful (%s, %d bytes). Skipping DNS update."
          [AStr (ddCheckURL fl); AStr (Status r);
           AInt (CopyDiscard (RespBody r))]]).
Proof.
  intros Hu Hn Hd. unfold checkURL.
  destruct (String.eqb_spec (ddCheckURL fl) EmptyString); [contradiction|].
  simpl. rewrite bind_ask, Hn. unfold bind, emit. rewrite Hd. reflexivity.
Qed.

Lemma checkURL_failed (fl : Flags) (w : World) (e : string) :
  ddCheckURL fl <> EmptyString ->
  new_request_err w "GET" (RawURL (ddCheckURL fl)) = None ->
  http_do w "GET" (RawURL (ddCheckURL fl)) None = Error e ->
  checkURL fl w =
  (Ret false,
   [EvGet (ddCheckURL fl);
    EvLog "URL check for %s failed: %v" [AStr (ddCheckURL fl); AStr e]]).
Proof.
  intros Hu Hn Hd. unfold checkURL.
  destruct (String.eqb_spec (ddCheckURL fl) EmptyString); [contradiction|].
  simpl. rewrite bind_ask, Hn. unfold bind, emit. rewrite Hd. reflexivity.
Qed.



Lemma checkURL_cases (fl : Flags) (w : World) :
  (healthCheckAnswers w fl /\ exists t, checkURL fl w = (Ret true, t) /\ quiet t)
  \/ (healthCheckSilent w fl
      /\ exists t, checkURL fl w = (Ret false, t) /\ quiet t)
  \/ (exists f a, checkURL fl w = (Fatal f a, [])).
Proof.
  destruct (String.eqb_spec (ddCheckURL fl) EmptyString) as [Hu|Hu].
  - right. left. split; [now left|].
    exists []. split; [now apply checkURL_unset | repeat split].
  - destruct (new_request_err w "GET" (RawURL (ddCheckURL fl))) as [e|] eqn:Hn.
    + right. right. do 2 eexists. eapply checkURL_not_created; eauto.
    + destruct (http_do w "GET" (RawURL (ddCheckURL fl)) None) as [r|e] eqn:Hd.
      * left. split; [repeat split; eauto|].
        eexists. split; [eapply checkURL_answered; eauto | repeat split].
      * right. left. split; [right; eauto|].
        eexists. split; [eapply checkURL_failed; eauto | repeat split].
Qed.

Lemma checkURL_silent (fl : Flags) (w : World) :
  healthCheckSilent w fl ->
  exists t, checkURL fl w = (Ret false, t) /\ quiet t.
Proof.
  intros [Hu|[Hn [e Hd]]].
  - exists []. split; [now apply checkURL_unset | repeat split].
  - destruct (String.eqb_spec (ddCheckURL fl) EmptyString) as [Hu|Hu].
    + exists []. split; [now apply checkURL_unset | repeat split].
    + eexists. split; [eapply checkURL_failed; eauto | repeat split].
Qed.

Lemma checkURL_false_silent (fl : Flags) (w : World) (t : Trace) :
  checkURL fl w = (Ret false, t) -> healthCheckSilent w fl /\ quiet t.
Proof.
  intros H.
  destruct (checkURL_cases fl w)
    as [[_ [t' [E _]]]|[[Hs [t' [E Hq]]]|[f [a E]]]];
    rewrite E in H; try discriminate.
  injection H as <-. auto.
Qed.

(** The client methods are [doRequest] at their URL and request value. *)
Lemma Ping_unfold (c : Client) (w : World) :
  Ping c w =
  doRequest (decode_ping w) c (url c ["ping"])
            (PingReq {| api.Ping_Keys := Keys (Config c) |}) w.
Proof. unfold Ping. now rewrite bind_ask. Qed.

Lemma EditAllA_unfold (c : Client) (subdomain ip : string) (w : World) :
  exists u req,
    editCall c subdomain ip = EvCall u req /\
    EditAllA c subdomain ip w = doRequest (decode_edit w) c u req w.
Proof.
  unfold EditAllA, editCall, url. rewrite bind_ask.
  destruct (String.eqb subdomain EmptyString); eauto.
Qed.

Lemma isWrite_editCall (c : Client) (subdomain ip : string) :
  isWrite (editCall c subdomain ip) = true.
Proof. reflexivity. Qed.

(** Ping returns to its caller and makes one ping call, no write, no lookup. *)
Lemma Ping_trace (c : Client) (w : World) :
  exists r t,
    Ping c w = (Ret r, t) /\ writes t = [] /\ lookups t = []
    /\ pings t = [EvCall (url c ["ping"])
                         (PingReq {| api.Ping_Keys := Keys (Config c) |})].
Proof.
  rewrite Ping_unfold.
  destruct (doRequest_returns (decode_ping w) c (url c ["ping"])
              (PingReq {| api.Ping_Keys := Keys (Config c) |}) w)
    as [r [Ho Ht]].
  destruct (doRequest _ _ _ _ w) as [o t]. simpl in Ho, Ht. subst o.
  exists r, t. split; [reflexivity|].
  destruct Ht as [-> | ->]; repeat split.
Qed.

(** [EditAllA] returns to its caller and makes exactly the one write call. *)
Lemma EditAllA_trace (c : Client) (subdomain ip : string) (w : World) :
  exists r t,
    EditAllA c subdomain ip w = (Ret r, t)
    /\ writes t = [editCall c subdomain ip] /\ lookups t = [] /\ pings t = [].
Proof.
  destruct (EditAllA_unfold c subdomain ip w) as [u [req [Hcall ->]]].
  pose proof (isWrite_editCall c subdomain ip) as Hw.
  assert (Hp : isPing (editCall c subdomain ip) = false) by reflexivity.
  rewrite Hcall in *.
  destruct (doRequest_returns (decode_edit w) c u req w) as [r [Ho Ht]].
  destruct (doRequest _ _ _ _ w) as [o t]. simpl in Ho, Ht. subst o.
  exists r, t. split; [reflexivity|].
  destruct Ht as [-> | ->]; unfold writes, pings, lookups; cbn [filter];
    rewrite Hw, Hp; repeat split.
Qed.

(** The run after a silent check and a successful ping. *)
Lemma update_after_ping (fl : Flags) (c : Client) (records : list api.Record_)
    (w : World) (t0 tp : Trace) (p : api.PingResponse) :
  checkURL fl w = (Ret false, t0) ->
  Ping c w = (Ret (OK p), tp) ->
  let ip := api.YourIP p in
  let domain := dotjoin (ddSubdomain fl) (Domain (Config c)) in
  let pre :=
    t0 ++ tp ++ [EvLog ("Your IP: %s" ++ LF) [AStr ip]; EvLookupHost domain] in
  doDynDNSUpdate fl c records w =
  match lookup_host w domain with
  | Error e =>
      (Fatal "Please set up an A record before running in -dyndns mode" [],
       pre ++ [EvLog "Failed to look up %q: %v" [AStr domain; AStr e]])
  | OK addrs =>
      if addrMatches addrs ip then
        (Ret tt,
         pre ++ [EvLog "Current IP %s matches public DNS record for %q. No update required."
                       [AStr ip; AStr domain]])
      else if recordExists records "A" domain ip then
        (Ret tt,
         pre ++ [EvLog "An A record for %s with IP %s already exists. No update required."
                       [AStr domain; AStr ip]])
      else if passesIPv4Check ip then
        match EditAllA c (ddSubdomain fl) ip w with
        | (Ret (OK _), te) =>
            (Ret tt,
             pre ++ te ++ [EvLog "Updated A record for %s to %s"
                                 [AStr (Domain (Config c)); AStr ip]])
        | (Ret (Error e), te) =>
            (Fatal "Failed to update A record: %v" [AStr e], pre ++ te)
        | (Fatal f a, te) => (Fatal f a, pre ++ te)
        end
      else (Fatal "Not a valid IPv4 address: %s" [AStr ip], pre)
  end.
Proof.
  intros Hc Hp ip domain pre.
  unfold doDynDNSUpdate.
  unfold bind at 1. rewrite Hc.
  unfold bind at 1. rewrite Hp.
  fold ip domain.
  unfold bind at 1. unfold Printf at 1. unfold emit at 1.
  rewrite bind_ask. unfold bind at 1. unfold emit at 1.
  rewrite passesIPv4Check_match.
  destruct (lookup_host w domain) as [addrs|e].
  - destruct (addrMatches addrs ip).
    + simpl; unfold pre; rewrite <- ?app_assoc; simpl; rewrite ?app_nil_r; reflexivity.
    + destruct (recordExists records "A" domain ip).
      * simpl; unfold pre; rewrite <- ?app_assoc; simpl; rewrite ?app_nil_r; reflexivity.
      * destruct (passesIPv4Check ip).
        -- unfold bind.
           destruct (EditAllA c (ddSubdomain fl) ip w) as [[[r|e]|f a] te];
             simpl; unfold pre; rewrite <- ?app_assoc; simpl;
             rewrite ?app_nil_r; reflexivity.
        -- simpl; unfold pre; rewrite <- ?app_assoc; simpl; rewrite ?app_nil_r; reflexivity.
  - simpl; unfold pre; rewrite <- ?app_assoc; simpl; rewrite ?app_nil_r; reflexivity.
Qed.

Lemma update_skipped (fl : Flags) (c : Client) (records : list api.Record_)
    (w : World) (t0 : Trace) :
  checkURL fl w = (Ret true, t0) ->
  doDynDNSUpdate fl c records w = (Ret tt, t0).
Proof.
  intros Hc. unfold doDynDNSUpdate, bind. rewrite Hc. simpl.
  now rewrite app_nil_r.
Qed.

Lemma update_check_fatal (fl : Flags) (c : Client)
    (records : list api.Record_) (w : World) (f : string) (a : list Arg)
    (t0 : Trace) :
  checkURL fl w = (Fatal f a, t0) ->
  doDynDNSUpdate fl c records w = (Fatal f a, t0).
Proof. intros Hc. unfold doDynDNSUpdate, bind. now rewrite Hc. Qed.

Lemma update_ping_failed (fl : Flags) (c : Client)
    (records : list api.Record_) (w : World) (t0 tp : Trace) (e : string) :
  checkURL fl w = (Ret false, t0) ->
  Ping c w = (Ret (Error e), tp) ->
  doDynDNSUpdate fl c records w = (Fatal "Ping failed: %v" [AStr e], t0 ++ tp).
Proof.
  intros Hc Hp. unfold doDynDNSUpdate.
  unfold bind at 1. rewrite Hc. unfold bind at 1. rewrite Hp. simpl.
  now rewrite app_nil_r.
Qed.

Lemma writes_pre (t0 tp : Trace) (fmt : string) (args : list Arg)
    (domain : string) :
  writes t0 = [] -> writes tp = [] ->
  writes (t0 ++ tp ++ [EvLog fmt args; EvLookupHost domain]) = [].
Proof. intros H0 Hp. now rewrite !writes_app, H0, Hp. Qed.

(** A run that arrives at [EditAllA] makes exactly its one write call. *)
Lemma update_writes_when_reached (fl : Flags) (c : Client)
    (records : list api.Record_) (w : World) (p : api.PingResponse)
    (addrs : list string) :
  healthCheckSilent w fl ->
  pingSucceeds w c p ->
  lookup_host w (dotjoin (ddSubdomain fl) (Domain (Config c))) = OK addrs ->
  addrMatches addrs (api.YourIP p) = false ->
  recordExists records "A" (dotjoin (ddSubdomain fl) (Domain (Config c)))
               (api.YourIP p) = false ->
  passesIPv4Check (api.YourIP p) = true ->
  writes (snd (doDynDNSUpdate fl c records w))
  = [editCall c (ddSubdomain fl) (api.YourIP p)].
Proof.
  intros Hs Hping Hl Ha Hr Hv.
  destruct (checkURL_silent fl w Hs) as [t0 [Hc [Hw0 _]]].
  destruct (Ping_trace c w) as [r [tp [Hp [Hwp _]]]].
  unfold pingSucceeds in Hping. rewrite Hp in Hping. simpl in Hping.
  injection Hping as ->.
  rewrite (update_after_ping fl c records w t0 tp p Hc Hp).
  cbv zeta. rewrite Hl, Ha, Hr, Hv.
  destruct (EditAllA_trace c (ddSubdomain fl) (api.YourIP p) w)
    as [re [te [He [Hwe _]]]].
  rewrite He. destruct re as [x|e]; simpl;
    rewrite !writes_app, Hw0, Hwp, ?writes_app, Hwe; reflexivity.
Qed.

(** Every other run makes no write call. *)
Lemma update_writes_nothing_otherwise (fl : Flags) (c : Client)
    (records : list api.Record_) (w : World) :
  ~ reachesWrite w fl c records ->
  writes (snd (doDynDNSUpdate fl c records w)) = [].
Proof.
  intros Hn.
  destruct (checkURL_cases fl w)
    as [[_ [t0 [Hc [Hw0 _]]]]|[[Hs [t0 [Hc [Hw0 _]]]]|[f [a Hc]]]].
  - now rewrite (update_skipped _ _ _ _ _ Hc).
  - destruct (Ping_trace c w) as [[p|e] [tp [Hp [Hwp _]]]].
    + rewrite (update_after_ping fl c records w t0 tp p Hc Hp). cbv zeta.
      destruct (lookup_host w _) as [addrs|e] eqn:Hl.
      * destruct (addrMatches addrs (api.YourIP p)) eqn:Ha;
          [simpl; now rewrite writes_app, writes_pre|].
        destruct (recordExists records "A" _ (api.YourIP p)) eqn:Hr;
          [simpl; now rewrite writes_app, writes_pre|].
        destruct (passesIPv4Check (api.YourIP p)) eqn:Hv;
          [|simpl; now rewrite writes_pre].
        exfalso. apply Hn. split; [exact Hs|].
        exists p, addrs. unfold pingSucceeds. rewrite Hp. auto.
      * simpl. now rewrite writes_app, writes_pre.
    + rewrite (update_ping_failed _ _ _ _ _ _ _ Hc Hp). simpl.
      now rewrite writes_app, Hw0, Hwp.
  - now rewrite (update_check_fatal _ _ _ _ _ _ _ Hc).
Qed.

(** ** Dotted quads pass the address check *)

Lemma isDigit_not_separator (c : ascii) :
  net.isDigit c = true ->
  Ascii.eqb c "."%char = false /\ Ascii.eqb c ":"%char = false
  /\ Ascii.eqb c "%"%char = false.
Proof.
  intros H.
  repeat split;
    match goal with
    | |- Ascii.eqb c ?x = false =>
        destruct (Ascii.eqb_spec c x) as [->|]; [discriminate H | reflexivity]
    end.
Qed.

Lemma digitsRun_isDigit (c : ascii) (ds : string) (val dl : nat)
    (r : nat * nat) :
  digitsRun (String c ds) val dl = Some r -> net.isDigit c = true.
Proof. simpl. destruct (net.isDigit c); [reflexivity | discriminate]. Qed.

Lemma digitsRun_step (c : ascii) (ds : string) (val dl : nat)
    (r : nat * nat) :
  digitsRun (String c ds) val dl = Some r ->
  (Nat.eqb dl 1 && Nat.eqb val 0 = false)
  /\ Nat.ltb 255 (val * 10 + (nat_of_ascii c - 48)) = false
  /\ digitsRun ds (val * 10 + (nat_of_ascii c - 48)) (S dl) = Some r.
Proof.
  simpl. destruct (net.isDigit c); [|discriminate].
  destruct (Nat.eqb dl 1 && Nat.eqb val 0); [discriminate|].
  destruct (Nat.ltb 255 (val * 10 + (nat_of_ascii c - 48)));
    [discriminate | auto].
Qed.

(** The scan of [ParseAddr] passes over digits and stops at the dot. *)
Lemma ParseAddr_scan_digits (ds rest whole : string) (val dl : nat)
    (r : nat * nat) :
  digitsRun ds val dl = Some r ->
  net.ParseAddr_scan (ds ++ String "."%char rest) whole
  = option_map net.Addr4 (net.parseIPv4 whole).
Proof.
  revert val dl. induction ds as [|c ds IH]; intros val dl H.
  - reflexivity.
  - pose proof (digitsRun_isDigit _ _ _ _ _ H) as Hd.
    destruct (isDigit_not_separator c Hd) as [H1 [H2 H3]].
    destruct (digitsRun_step _ _ _ _ _ H) as [_ [_ H']].
    simpl. rewrite H1, H2, H3. exact (IH _ _ H').
Qed.

(** The loop of [parseIPv4] reads an octet's digits as [digitsRun] does. *)
Lemma parseIPv4_loop_digits (ds rest : string) (fields : list nat)
    (val pos dl : nat) (r : nat * nat) :
  digitsRun ds val dl = Some r ->
  net.parseIPv4_loop (ds ++ rest) false false fields val pos dl
  = net.parseIPv4_loop rest false false fields (fst r) pos (snd r).
Proof.
  revert val dl. induction ds as [|c ds IH]; intros val dl H.
  - injection H as <-. reflexivity.
  - pose proof (digitsRun_isDigit _ _ _ _ _ H) as Hd.
    destruct (digitsRun_step _ _ _ _ _ H) as [Hz [Hv H']].
    simpl. rewrite Hd, Hz, Hv. exact (IH _ _ H').
Qed.

Lemma parseIPv4_loop_octet (c : ascii) (ds rest : string)
    (first prevDot : bool) (fields : list nat) (pos : nat) (r : nat * nat) :
  digitsRun (String c ds) 0 0 = Some r ->
  net.parseIPv4_loop (String c ds ++ rest) first prevDot fields 0 pos 0
  = net.parseIPv4_loop rest false false fields (fst r) pos (snd r).
Proof.
  intros H.
  pose proof (digitsRun_isDigit _ _ _ _ _ H) as Hd.
  destruct (digitsRun_step _ _ _ _ _ H) as [Hz [Hv H']].
  simpl. rewrite Hd. simpl in Hv. rewrite Hv.
  exact (parseIPv4_loop_digits ds rest fields _ pos 1 r H').
Qed.

(** The numerals of the octets: not empty, all digits, read back as the
    number. *)
Lemma decimal_octet (n : nat) :
  n < 256 ->
  exists c ds dl,
    decimal n = String c ds /\ digitsRun (String c ds) 0 0 = Some (n, dl).
Proof.
  intros Hn.
  assert (Hall :
    forallb (fun n =>
               match decimal n with
               | EmptyString => false
               | String c ds =>
                   match digitsRun (String c ds) 0 0 with
                   | Some (v, _) => Nat.eqb v n
                   | None => false
                   end
               end) (seq 0 256) = true) by (vm_compute; reflexivity).
  rewrite forallb_forall in Hall.
  specialize (Hall n). rewrite in_seq in Hall.
  assert (H : 0 <= n < 0 + 256) by lia. apply Hall in H. clear Hall.
  destruct (decimal n) as [|c ds]; [discriminate|].
  destruct (digitsRun (String c ds) 0 0) as [[v dl]|] eqn:E; [|discriminate].
  apply Nat.eqb_eq in H. subst v. exists c, ds, dl. split; [reflexivity|exact E].
Qed.

Lemma string_append_nil (s : string) : (s ++ EmptyString)%string = s.
Proof. induction s as [|c s IH]; simpl; [reflexivity | now rewrite IH]. Qed.

Lemma parseIPv4_dottedQuad (a b c d : nat) :
  a < 256 -> b < 256 -> c < 256 -> d < 256 ->
  net.parseIPv4 (dottedQuad a b c d) = Some [a; b; c; d].
Proof.
  intros Ha Hb Hc Hd. unfold dottedQuad, net.parseIPv4.
  destruct (decimal_octet a Ha) as [ca [da [la [-> Hra]]]].
  destruct (decimal_octet b Hb) as [cb [db [lb [-> Hrb]]]].
  destruct (decimal_octet c Hc) as [cc [dc [lc [-> Hrc]]]].
  destruct (decimal_octet d Hd) as [cd [dd [ld [Ed Hrd]]]].
  rewrite (parseIPv4_loop_octet _ _ _ _ _ _ _ _ Hra).
  cbn [fst snd append net.parseIPv4_loop net.isDigit nat_of_ascii].
  change (net.parseIPv4_loop
            (String cb db ++ "." ++ String cc dc ++ "." ++ decimal d)
            false true ([] ++ [a]) 0 1 0
          = Some [a; b; c; d]).
  rewrite (parseIPv4_loop_octet _ _ _ _ _ _ _ _ Hrb).
  change (net.parseIPv4_loop
            (String cc dc ++ "." ++ decimal d)
            false true (([] ++ [a]) ++ [b]) 0 2 0
          = Some [a; b; c; d]).
  rewrite (parseIPv4_loop_octet _ _ _ _ _ _ _ _ Hrc).
  rewrite Ed.
  change (net.parseIPv4_loop (String cd dd) false true
            ((([] ++ [a]) ++ [b]) ++ [c]) 0 3 0
          = Some [a; b; c; d]).
  rewrite <- (string_append_nil (String cd dd)).
  rewrite (parseIPv4_loop_octet _ _ _ _ _ _ _ _ Hrd).
  reflexivity.
Qed.

Lemma ParseIP_dottedQuad (a b c d : nat) :
  a < 256 -> b < 256 -> c < 256 -> d < 256 ->
  net.ParseIP (dottedQuad a b c d)
  = Some [0; 0; 0; 0; 0; 0; 0; 0; 0; 0; 255; 255; a; b; c; d].
Proof.
  intros Ha Hb Hc Hd.
  pose proof (parseIPv4_dottedQuad a b c d Ha Hb Hc Hd) as Hp.
  unfold net.ParseIP, net.ParseAddr.
  destruct (decimal_octet a Ha) as [ca [da [la [Ea Hra]]]].
  assert (Hscan :
    net.ParseAddr_scan (dottedQuad a b c d) (dottedQuad a b c d)
    = option_map net.Addr4 (net.parseIPv4 (dottedQuad a b c d))).
  { unfold dottedQuad at 1. rewrite Ea.
    exact (ParseAddr_scan_digits (String ca da) _ _ 0 0 _ Hra). }
  rewrite Hscan, Hp. reflexivity.
Qed.

(** A syntactically valid IPv4 address passes the check before the write. *)
Lemma IPv4Literal_passes (s : string) :
  IPv4Literal s -> passesIPv4Check s = true.
Proof.
  intros [a [b [c [d [Ha [Hb [Hc [Hd ->]]]]]]]].
  unfold passesIPv4Check.
  rewrite (ParseIP_dottedQuad a b c d Ha Hb Hc Hd). reflexivity.
Qed.

(** C1. When the health check is silent, ping succeeds, local resolution
    of the qualified name succeeds with no address equal to the current
    public IP, the snapshot holds no A record with that name and content, and
    the current IP is a valid IPv4 literal, the run's write calls are exactly
    one: the edit of type A for the configured domain and subdomain with the
    current IP as content. *)
Theorem update_issues_exactly_one_write :
  forall (w : World) (fl : Flags) (c : Client) (records : list api.Record_)
         (p : api.PingResponse) (addrs : list string),
    healthCheckSilent w fl ->
    pingSucceeds w c p ->
    lookup_host w (dotjoin (ddSubdomain fl) (Domain (Config c))) = OK addrs ->
    ~ In (api.YourIP p) addrs ->
    (forall r, In r records ->
       ~ (api.Type_ r = "A"
          /\ api.Name r = dotjoin (ddSubdomain fl) (Domain (Config c))
          /\ api.Content r = api.YourIP p)) ->
    IPv4Literal (api.YourIP p) ->
    writes (snd (doDynDNSUpdate fl c records w))
    = [EvCall
         (JoinPath (BaseURL c)
            ("dns/editByNameType" :: Domain (Config c) :: "A"
               :: (if String.eqb (ddSubdomain fl) EmptyString then []
                   else [ddSubdomain fl])))
         (UpdateReq {| api.Req_Keys := Keys (Config c);
                       api.Req_Name := EmptyString;
                       api.Req_Type := EmptyString;
                       api.Req_Content := api.YourIP p;
                       api.Req_TTL := EmptyString;
                       api.Req_Prio := EmptyString |})].
Proof.
  intros w fl c records p addrs Hs Hp Hl Hnot Hrec Hip.
  apply (update_writes_when_reached fl c records w p addrs Hs Hp Hl).
  - destruct (addrMatches addrs (api.YourIP p)) eqn:E; [|reflexivity].
    apply addrMatches_In in E. contradiction.
  - now apply recordExists_false.
  - now apply IPv4Literal_passes.
Qed.

Lemma update_issues_exactly_one_write_witness :
  writes (snd (doDynDNSUpdate (flags EmptyString true "www" EmptyString)
                 exampleClient
                 [record "www.example.com" "A" "198.51.100.1"] staleWorld))
  = [editCall exampleClient "www" "203.0.113.7"].
Proof.
  apply (update_issues_exactly_one_write staleWorld
           (flags EmptyString true "www" EmptyString) exampleClient
           [record "www.example.com" "A" "198.51.100.1"]
           {| api.Ping_Status := success; api.YourIP := "203.0.113.7" |}
           ["198.51.100.1"]).
  - left. reflexivity.
  - reflexivity.
  - reflexivity.
  - intros [H|[]]. discriminate H.
  - intros r [<-|[]] [_ [_ H]]. discriminate H.
  - exists 203, 0, 113, 7. repeat split; try lia.
Defined.

(** C4. When a check URL is configured and its GET returns a response, of
    whatever status, the run returns at once: no ping call, no lookup, no
    write call and no POST at all. *)
Theorem answered_check_skips_ping_lookup_and_write :
  forall (w : World) (fl : Flags) (c : Client) (records : list api.Record_),
    healthCheckAnswers w fl ->
    fst (doDynDNSUpdate fl c records w) = Ret tt
    /\ pings (snd (doDynDNSUpdate fl c records w)) = []
    /\ lookups (snd (doDynDNSUpdate fl c records w)) = []
    /\ writes (snd (doDynDNSUpdate fl c records w)) = []
    /\ posts (snd (doDynDNSUpdate fl c records w)) = [].
Proof.
  intros w fl c records [Hu [Hn [r Hd]]].
  rewrite (update_skipped fl c records w _ (checkURL_answered fl w r Hu Hn Hd)).
  repeat split.
Qed.

Lemma answered_check_skips_ping_lookup_and_write_witness :
  fst (doDynDNSUpdate
         (flags EmptyString true "www" "https://www.example.com/health")
         exampleClient []
         (exampleWorld (OK (response 404 "404 Not Found" (Readable "gone")))
                       (OK ok200) "203.0.113.7" (OK ["198.51.100.1"]) []))
  = Ret tt
  /\ pings (snd (doDynDNSUpdate
         (flags EmptyString true "www" "https://www.example.com/health")
         exampleClient []
         (exampleWorld (OK (response 404 "404 Not Found" (Readable "gone")))
                       (OK ok200) "203.0.113.7" (OK ["198.51.100.1"]) [])))
     = []
  /\ lookups (snd (doDynDNSUpdate
         (flags EmptyString true "www" "https://www.example.com/health")
         exampleClient []
         (exampleWorld (OK (response 404 "404 Not Found" (Readable "gone")))
                       (OK ok200) "203.0.113.7" (OK ["198.51.100.1"]) [])))
     = []
  /\ writes (snd (doDynDNSUpdate
         (flags EmptyString true "www" "https://www.example.com/health")
         exampleClient []
         (exampleWorld (OK (response 404 "404 Not Found" (Readable "gone")))
                       (OK ok200) "203.0.113.7" (OK ["198.51.100.1"]) [])))
     = []
  /\ posts (snd (doDynDNSUpdate
         (flags EmptyString true "www" "https://www.example.com/health")
         exampleClient []
         (exampleWorld (OK (response 404 "404 Not Found" (Readable "gone")))
                       (OK ok200) "203.0.113.7" (OK ["198.51.100.1"]) [])))
     = [].
Proof.
  apply answered_check_skips_ping_lookup_and_write.
  split; [discriminate|]. split; [reflexivity|].
  eexists. reflexivity.
Defined.

(** C5. When the health check is silent, ping succeeds and local
    resolution returns an address equal to the current public IP, the run
    returns without any write call. *)
Theorem resolved_address_equal_to_ip_is_noop :
  forall (w : World) (fl : Flags) (c : Client) (records : list api.Record_)
         (p : api.PingResponse) (addrs : list string),
    healthCheckSilent w fl ->
    pingSucceeds w c p ->
    lookup_host w (dotjoin (ddSubdomain fl) (Domain (Config c))) = OK addrs ->
    In (api.YourIP p) addrs ->
    fst (doDynDNSUpdate fl c records w) = Ret tt
    /\ writes (snd (doDynDNSUpdate fl c records w)) = [].
Proof.
  intros w fl c records p addrs Hs Hping Hl Hin.
  destruct (checkURL_silent fl w Hs) as [t0 [Hc [Hw0 _]]].
  destruct (Ping_trace c w) as [r [tp [Hp [Hwp _]]]].
  unfold pingSucceeds in Hping. rewrite Hp in Hping. simpl in Hping.
  injection Hping as ->.
  rewrite (update_after_ping fl c records w t0 tp p Hc Hp). cbv zeta.
  apply addrMatches_In in Hin. rewrite Hl, Hin. simpl.
  split; [reflexivity|]. now rewrite writes_app, writes_pre.
Qed.

Lemma resolved_address_equal_to_ip_is_noop_witness :
  fst (doDynDNSUpdate (flags EmptyString true "www" EmptyString)
         exampleClient []
         (exampleWorld refused (OK ok200) "203.0.113.7"
                       (OK ["198.51.100.1"; "203.0.113.7"]) []))
  = Ret tt
  /\ writes (snd (doDynDNSUpdate (flags EmptyString true "www" EmptyString)
         exampleClient []
         (exampleWorld refused (OK ok200) "203.0.113.7"
                       (OK ["198.51.100.1"; "203.0.113.7"]) [])))
     = [].
Proof.
  apply (resolved_address_equal_to_ip_is_noop _ _ _ _
           {| api.Ping_Status := success; api.YourIP := "203.0.113.7" |}
           ["198.51.100.1"; "203.0.113.7"]).
  - left. reflexivity.
  - reflexivity.
  - reflexivity.
  - right. left. reflexivity.
Defined.

(** An address that fails the check stops the run before the write. *)
Lemma rejected_address_aborts (fl : Flags) (c : Client)
    (records : list api.Record_) (w : World) (p : api.PingResponse)
    (addrs : list string) :
  healthCheckSilent w fl ->
  pingSucceeds w c p ->
  lookup_host w (dotjoin (ddSubdomain fl) (Domain (Config c))) = OK addrs ->
  addrMatches addrs (api.YourIP p) = false ->
  recordExists records "A" (dotjoin (ddSubdomain fl) (Domain (Config c)))
               (api.YourIP p) = false ->
  passesIPv4Check (api.YourIP p) = false ->
  fst (doDynDNSUpdate fl c records w)
  = Fatal "Not a valid IPv4 address: %s" [AStr (api.YourIP p)]
  /\ writes (snd (doDynDNSUpdate fl c records w)) = [].
Proof.
  intros Hs Hping Hl Ha Hr Hv.
  destruct (checkURL_silent fl w Hs) as [t0 [Hc [Hw0 _]]].
  destruct (Ping_trace c w) as [r [tp [Hp [Hwp _]]]].
  unfold pingSucceeds in Hping. rewrite Hp in Hping. simpl in Hping.
  injection Hping as ->.
  rewrite (update_after_ping fl c records w t0 tp p Hc Hp). cbv zeta.
  rewrite Hl, Ha, Hr, Hv. simpl. split; [reflexivity|].
  now rewrite writes_pre.
Qed.

Example out_of_range_octet_rejected : passesIPv4Check "300.1.1.1" = false.
Proof. reflexivity. Qed.

Example ipv6_literal_rejected : passesIPv4Check "2001:db8::1" = false.
Proof. vm_compute. reflexivity. Qed.

Lemma IPv4Literal_starts_with_digit (s : string) :
  IPv4Literal s -> exists c rest, s = String c rest /\ net.isDigit c = true.
Proof.
  intros [a [b [c [d [Ha [_ [_ [_ ->]]]]]]]]. unfold dottedQuad.
  destruct (decimal_octet a Ha) as [ca [da [la [-> Hra]]]].
  exists ca. eexists. split; [reflexivity|].
  exact (digitsRun_isDigit _ _ _ _ _ Hra).
Qed.

(** C6 (the code at the failing input). Ping reports the IPv4-mapped IPv6
    literal [::ffff:1.2.3.4], which is no IPv4 literal; [net.ParseIP]
    accepts it and [To4] gives its last four bytes, so the check passes and
    the run ends normally after a write call whose content is that literal. *)
Theorem mapped_ipv6_literal_reaches_the_write :
  ~ IPv4Literal "::ffff:1.2.3.4"
  /\ net.ParseIP "::ffff:1.2.3.4"
     = Some [0; 0; 0; 0; 0; 0; 0; 0; 0; 0; 255; 255; 1; 2; 3; 4]
  /\ net.To4 [0; 0; 0; 0; 0; 0; 0; 0; 0; 0; 255; 255; 1; 2; 3; 4]
     = Some [1; 2; 3; 4]
  /\ fst (doDynDNSUpdate (flags EmptyString true "www" EmptyString)
            exampleClient [] mappedWorld) = Ret tt
  /\ writes (snd (doDynDNSUpdate (flags EmptyString true "www" EmptyString)
                    exampleClient [] mappedWorld))
     = [editCall exampleClient "www" "::ffff:1.2.3.4"].
Proof.
  split.
  - intros H. apply IPv4Literal_starts_with_digit in H.
    destruct H as [c [rest [E Hd]]]. injection E as <- _. discriminate Hd.
  - repeat split; vm_compute; reflexivity.
Qed.

(** C2 (as stated, refuted). The address has changed, the resolver still
    answers the old one and no snapshot was fetched: the second of two runs
    in the unchanged world makes the write call again, whether the provider
    accepts the edit or refuses it. *)
Lemma second_run_writes_again :
  writes (snd (snd (twoRuns (flags EmptyString true "www" EmptyString)
                      exampleClient [] staleWorld)))
  = [editCall exampleClient "www" "203.0.113.7"]
  /\ writes (snd (snd (twoRuns (flags EmptyString true "www" EmptyString)
                         exampleClient [] refusingWorld)))
     = [editCall exampleClient "www" "203.0.113.7"].
Proof. split; vm_compute; reflexivity. Qed.

(** C2 (amended). Of two runs in succession in an unchanged world the
    second repeats the first, outcome and calls; it makes no write call
    exactly when the run does not arrive at the write step (the health check
    answers, ping or resolution fails, a resolved address equals the current
    IP, the snapshot holds the A record, or the address fails the check), and
    when the run does arrive there it makes the one edit call again. *)
Theorem second_run_repeats_the_first :
  forall (w : World) (fl : Flags) (c : Client) (records : list api.Record_),
    snd (twoRuns fl c records w) = fst (twoRuns fl c records w)
    /\ (writes (snd (snd (twoRuns fl c records w))) = []
        <-> ~ reachesWrite w fl c records)
    /\ (reachesWrite w fl c records ->
        exists p, pingSucceeds w c p
                  /\ writes (snd (snd (twoRuns fl c records w)))
                     = [editCall c (ddSubdomain fl) (api.YourIP p)]).
Proof.
  intros w fl c records. unfold twoRuns. cbn [fst snd].
  split; [reflexivity|]. split; [split|].
  - intros Hw [Hs [p [addrs [Hp [Hl [Ha [Hr Hv]]]]]]].
    rewrite (update_writes_when_reached fl c records w p addrs Hs Hp Hl Ha Hr Hv)
      in Hw.
    discriminate Hw.
  - apply update_writes_nothing_otherwise.
  - intros [Hs [p [addrs [Hp [Hl [Ha [Hr Hv]]]]]]]. exists p.
    split; [exact Hp|].
    exact (update_writes_when_reached fl c records w p addrs Hs Hp Hl Ha Hr Hv).
Qed.

(** ** The record listing *)

Lemma includeLoop_all (w : World) (items : list string) (ia : bool)
    (inc : string -> bool) :
  fst (includeLoop w items ia inc) = ia || existsb (String.eqb "all") items.
Proof.
  revert ia inc.
  induction items as [|n items IH]; intros ia inc; cbn [includeLoop existsb].
  - now rewrite orb_false_r.
  - rewrite (String.eqb_sym "all" n).
    destruct (String.eqb n "all"); rewrite IH; cbn [orb].
    + now rewrite orb_true_r.
    + reflexivity.
Qed.

Lemma includeLoop_include (w : World) (items : list string) (ia : bool)
    (inc : string -> bool) (k : string) :
  snd (includeLoop w items ia inc) k
  = inc k
    || existsb (fun n => negb (String.eqb n "all")
                         && String.eqb k (strings.ToUpper (unicode_upper w) n))
               items.
Proof.
  revert ia inc.
  induction items as [|n items IH]; intros ia inc; cbn [includeLoop existsb].
  - now rewrite orb_false_r.
  - destruct (String.eqb n "all"); rewrite IH; cbn [negb andb orb];
      [reflexivity|].
    destruct (String.eqb k (strings.ToUpper (unicode_upper w) n));
      cbn [orb]; [now rewrite orb_true_r | reflexivity].
Qed.

(** The test of the second loop is [listed]. *)
Lemma include_test_listed (w : World) (names : list string)
    (r : api.Record_) :
  fst (includeLoop w names false (fun _ => false))
  || snd (includeLoop w names false (fun _ => false)) (api.Type_ r)
  = listed w names r.
Proof.
  rewrite includeLoop_all, includeLoop_include. unfold listed. cbn [orb].
  destruct (existsb (String.eqb "all") names) eqn:Hall; [reflexivity|].
  cbn [orb]. induction names as [|n names IH]; cbn [existsb]; [reflexivity|].
  cbn [existsb] in Hall. apply orb_false_elim in Hall.
  destruct Hall as [Hn Hall].
  rewrite String.eqb_sym in Hn. rewrite Hn, (IH Hall). reflexivity.
Qed.

Lemma recordLinesLoop_filter (records : list api.Record_) (ia : bool)
    (inc : string -> bool) :
  recordLinesLoop records ia inc
  = map api.Record_String
        (filter (fun r => ia || inc (api.Type_ r)) records).
Proof.
  induction records as [|r records IH]; simpl; [reflexivity|].
  destruct (ia || inc (api.Type_ r)); simpl; now rewrite IH.
Qed.

Lemma RetrieveAll_trace (c : Client) (w : World) :
  exists r t, RetrieveAll c w = (Ret r, t) /\ writes t = [].
Proof.
  unfold RetrieveAll. rewrite bind_ask.
  destruct (doRequest_returns (decode_records w) c
              (url c ["dns/retrieve"; Domain (Config c)])
              (RecordsReq {| api.Records_Keys := Keys (Config c) |}) w)
    as [r [Ho Ht]].
  destruct (doRequest _ _ _ _ w) as [o t]. simpl in Ho, Ht. subst o.
  exists r, t. split; [reflexivity|].
  destruct Ht as [-> | ->]; reflexivity.
Qed.

(** The listing after a successful retrieval. *)
Lemma doPrintRecords_retrieved (fl : Flags) (c : Client) (w : World)
    (resp : api.RecordsResponse) :
  fst (RetrieveAll c w) = Ret (OK resp) ->
  doPrintRecords fl c w
  = (Ret (api.Records resp),
     snd (RetrieveAll c w)
     ++ [listingEvent
           (map api.Record_String
              (filter (listed w (strings.Split (printRecords fl) ","%char))
                      (api.Records resp)))]).
Proof.
  intros Hr. unfold doPrintRecords. rewrite bind_ask.
  pose proof (include_test_listed w (strings.Split (printRecords fl) ","%char))
    as Htest.
  destruct (includeLoop w (strings.Split (printRecords fl) ","%char) false
              (fun _ => false)) as [ia inc].
  simpl in Htest.
  unfold bind at 1. destruct (RetrieveAll c w) as [o t]. simpl in Hr.
  subst o. rewrite recordLinesLoop_filter.
  rewrite (filter_ext _ _ Htest). reflexivity.
Qed.

(** C9 (as stated, refuted). With [-print a] and a domain holding one
    record of type [A] and one of type [a], the listing prints the line of
    the [A] record only, while the record whose type is among the supplied
    names is the other one. *)
Lemma listing_matches_upper_cased_names_only :
  snd (doPrintRecords (flags "a" false EmptyString EmptyString) exampleClient
         (exampleWorld refused (OK ok200) "203.0.113.7" (OK [])
            [record "example.com" "A" "198.51.100.1";
             record "old.example.com" "a" "198.51.100.2"]))
  = [EvCall (url exampleClient ["dns/retrieve"; "example.com"])
            (RecordsReq {| api.Records_Keys := exampleKeys |});
     EvPost (url exampleClient ["dns/retrieve"; "example.com"])
            (RecordsReq {| api.Records_Keys := exampleKeys |});
     listingEvent ["example.com A 198.51.100.1 600 0 (42)"]]
  /\ specLines (strings.Split "a" ","%char)
       [record "example.com" "A" "198.51.100.1";
        record "old.example.com" "a" "198.51.100.2"]
     = ["old.example.com a 198.51.100.2 600 0 (42)"].
Proof. split; vm_compute; reflexivity. Qed.

(** C9 (amended). After a successful retrieval the listing logs one line
    per record whose type equals the upper-cased form of one of the supplied
    comma-separated names, or per record when [all] is among the names, in
    the order of the records; each line is name, type, content, ttl and
    priority separated by spaces and the id in parentheses; the only call is
    the retrieval, so no record is created or edited. *)
Theorem listing_prints_selected_records_and_writes_nothing :
  forall (w : World) (fl : Flags) (c : Client) (resp : api.RecordsResponse),
    fst (RetrieveAll c w) = Ret (OK resp) ->
    snd (doPrintRecords fl c w)
    = snd (RetrieveAll c w)
      ++ [EvLog ("Your records:" ++ LF ++ "%s")
            [AStr (strings.Join
                     (map (fun r =>
                             api.Name r ++ " " ++ api.Type_ r ++ " "
                             ++ api.Content r ++ " " ++ api.TTL r ++ " "
                             ++ api.Prio r ++ " (" ++ api.ID r ++ ")")%string
                          (filter
                             (listed w (strings.Split (printRecords fl)
                                                      ","%char))
                             (api.Records resp)))
                     LF)]]
    /\ writes (snd (doPrintRecords fl c w)) = [].
Proof.
  intros w fl c resp Hr.
  rewrite (doPrintRecords_retrieved fl c w resp Hr). cbn [snd].
  split; [reflexivity|].
  destruct (RetrieveAll_trace c w) as [r [t [E Hw]]].
  rewrite E. cbn [snd]. now rewrite writes_app, Hw.
Qed.

Lemma listing_prints_selected_records_and_writes_nothing_witness :
  snd (doPrintRecords (flags "a,TXT" false EmptyString EmptyString)
         exampleClient
         (exampleWorld refused (OK ok200) "203.0.113.7" (OK [])
            [record "example.com" "A" "198.51.100.1";
             record "example.com" "MX" "mail.example.com";
             record "example.com" "TXT" "v=spf1 -all"]))
  = [EvCall (url exampleClient ["dns/retrieve"; "example.com"])
            (RecordsReq {| api.Records_Keys := exampleKeys |});
     EvPost (url exampleClient ["dns/retrieve"; "example.com"])
            (RecordsReq {| api.Records_Keys := exampleKeys |});
     listingEvent ["example.com A 198.51.100.1 600 0 (42)";
                   "example.com TXT v=spf1 -all 600 0 (42)"]]
  /\ writes (snd (doPrintRecords (flags "a,TXT" false EmptyString EmptyString)
         exampleClient
         (exampleWorld refused (OK ok200) "203.0.113.7" (OK [])
            [record "example.com" "A" "198.51.100.1";
             record "example.com" "MX" "mail.example.com";
             record "example.com" "TXT" "v=spf1 -all"])))
     = [].
Proof.
  apply (listing_prints_selected_records_and_writes_nothing
           (exampleWorld refused (OK ok200) "203.0.113.7" (OK [])
              [record "example.com" "A" "198.51.100.1";
               record "example.com" "MX" "mail.example.com";
               record "example.com" "TXT" "v=spf1 -all"])
           (flags "a,TXT" false EmptyString EmptyString) exampleClient
           {| api.Records_Status := success;
              api.Records :=
                [record "example.com" "A" "198.51.100.1";
                 record "example.com" "MX" "mail.example.com";
                 record "example.com" "TXT" "v=spf1 -all"] |}).
  reflexivity.
Defined.

(** ** The entry point *)

Lemma ReadClientConfig_read (w : World) (path : string) (f : Body)
    (d : string) (k : api.Keys) :
  os_open w path = OK f ->
  decode_config w f = OK (d, k) ->
  ReadClientConfig path w = (Ret (OK {| Domain := d; Keys := k |}), []).
Proof.
  intros Ho Hd. unfold ReadClientConfig. rewrite bind_ask, Ho, Hd.
  reflexivity.
Qed.

(** C10. Whatever the [-print] filter, after a successful retrieval
    [doPrintRecords] returns the whole list of retrieved records, and [main]
    hands that same list to the update procedure, whose known-records step
    therefore sees the records of every type and not only the printed ones. *)
Theorem snapshot_is_the_unfiltered_record_list :
  forall (w : World) (fl : Flags) (resp : api.RecordsResponse) (f : Body)
         (d : string) (k : api.Keys),
    os_open w (path_join w [getenv w "HOME"; ".porkbungo"]) = OK f ->
    decode_config w f = OK (d, k) ->
    fst (RetrieveAll (NewClient {| Domain := d; Keys := k |} true) w)
    = Ret (OK resp) ->
    printRecords fl <> EmptyString ->
    fst (doPrintRecords fl (NewClient {| Domain := d; Keys := k |} true) w)
    = Ret (api.Records resp)
    /\ (dyndns fl = true ->
        main fl w
        = (fst (doDynDNSUpdate fl (NewClient {| Domain := d; Keys := k |} true)
                  (api.Records resp) w),
           [EvLog "Read config from %s. Running for domain %q."
                  [AStr (path_join w [getenv w "HOME"; ".porkbungo"]); AStr d]]
           ++ snd (doPrintRecords fl
                     (NewClient {| Domain := d; Keys := k |} true) w)
           ++ snd (doDynDNSUpdate fl
                     (NewClient {| Domain := d; Keys := k |} true)
                     (api.Records resp) w))).
Proof.
  intros w fl resp f d k Ho Hd Hr Hp.
  pose proof (doPrintRecords_retrieved fl _ w resp Hr) as Hprint.
  split; [now rewrite Hprint|].
  intros Hdyn. unfold main. rewrite bind_ask.
  unfold bind at 1. rewrite (ReadClientConfig_read w _ f d k Ho Hd).
  unfold bind at 1. unfold Printf at 1, emit at 1.
  destruct (String.eqb_spec (printRecords fl) EmptyString) as [E|_];
    [contradiction|].
  cbn [negb Domain]. unfold bind at 1. rewrite Hprint, Hdyn. cbn [snd].
  destruct (doDynDNSUpdate fl _ (api.Records resp) w) as [o t].
  reflexivity.
Qed.

Lemma snapshot_is_the_unfiltered_record_list_witness :
  fst (doPrintRecords (flags "TXT" true "www" EmptyString)
         (NewClient {| Domain := "example.com"; Keys := exampleKeys |} true)
         (exampleWorld refused (OK ok200) "203.0.113.7" (OK ["198.51.100.1"])
            [record "www.example.com" "A" "203.0.113.7";
             record "example.com" "TXT" "v=spf1 -all"]))
  = Ret [record "www.example.com" "A" "203.0.113.7";
         record "example.com" "TXT" "v=spf1 -all"]
  /\ writes (snd (main (flags "TXT" true "www" EmptyString)
         (exampleWorld refused (OK ok200) "203.0.113.7" (OK ["198.51.100.1"])
            [record "www.example.com" "A" "203.0.113.7";
             record "example.com" "TXT" "v=spf1 -all"])))
     = [].
Proof.
  destruct (snapshot_is_the_unfiltered_record_list
              (exampleWorld refused (OK ok200) "203.0.113.7"
                 (OK ["198.51.100.1"])
                 [record "www.example.com" "A" "203.0.113.7";
                  record "example.com" "TXT" "v=spf1 -all"])
              (flags "TXT" true "www" EmptyString)
              {| api.Records_Status := success;
                 api.Records :=
                   [record "www.example.com" "A" "203.0.113.7";
                    record "example.com" "TXT" "v=spf1 -all"] |}
              (Readable "{}") "example.com" exampleKeys
              eq_refl eq_refl eq_refl)
    as [Hret Hmain].
  - discriminate.
  - split; [exact Hret|]. rewrite (Hmain eq_refl). reflexivity.
Defined.

(** * Further properties of the code *)

(** ** The shape of a run *)

Lemma doRequest_shape {Resp : Type} (decode : Body -> Res Resp)
    (c : Client) (u : URL) (req : Payload) (w : World) :
  exists r t, doRequest decode c u req w = (Ret r, t) /\ requestPart u req t.
Proof.
  destruct (doRequest_returns decode c u req w) as [r [Ho Ht]].
  destruct (doRequest decode c u req w) as [o t]. simpl in Ho, Ht. subst o.
  exists r, t. split; [reflexivity | exact Ht].
Qed.

Lemma Ping_shape (c : Client) (w : World) :
  exists r t,
    Ping c w = (Ret r, t) /\ requestPart (pingURL c) (pingRequest c) t.
Proof. rewrite Ping_unfold. apply doRequest_shape. Qed.

Lemma RetrieveAll_shape (c : Client) (w : World) :
  exists r t,
    RetrieveAll c w = (Ret r, t)
    /\ requestPart (retrieveURL c) (retrieveRequest c) t.
Proof. unfold RetrieveAll. rewrite bind_ask. apply doRequest_shape. Qed.

Lemma CreateA_shape (c : Client) (subdomain ip : string) (w : World) :
  exists r t,
    CreateA c subdomain ip w = (Ret r, t)
    /\ requestPart (createURL c) (createRequest c subdomain ip) t.
Proof. unfold CreateA. rewrite bind_ask. apply doRequest_shape. Qed.

Lemma EditAllA_shape (c : Client) (subdomain ip : string) (w : World) :
  exists r t,
    EditAllA c subdomain ip w = (Ret r, t)
    /\ requestPart (editURL c subdomain) (editRequest c ip) t.
Proof.
  unfold EditAllA, editURL, url. rewrite bind_ask.
  destruct (String.eqb subdomain EmptyString); apply doRequest_shape.
Qed.

Lemma checkURL_shape (fl : Flags) (w : World) :
  exists o t, checkURL fl w = (o, t) /\ checkPart fl t
              /\ (t = [] -> o = Ret false \/ exists f a, o = Fatal f a).
Proof.
  destruct (String.eqb_spec (ddCheckURL fl) EmptyString) as [Hu|Hu].
  - rewrite (checkURL_unset fl w Hu). do 2 eexists.
    split; [reflexivity|]. split; [now left | auto].
  - destruct (new_request_err w "GET" (RawURL (ddCheckURL fl))) as [e|] eqn:Hn.
    + rewrite (checkURL_not_created fl w e Hu Hn). do 2 eexists.
      split; [reflexivity|]. split; [now left | eauto].
    + destruct (http_do w "GET" (RawURL (ddCheckURL fl)) None) as [r|e] eqn:Hd.
      * rewrite (checkURL_answered fl w r Hu Hn Hd). do 2 eexists.
        split; [reflexivity|]. split; [right; eauto | discriminate].
      * rewrite (checkURL_failed fl w e Hu Hn Hd). do 2 eexists.
        split; [reflexivity|]. split; [right; eauto | discriminate].
Qed.

Ltac shape_side :=
  repeat split; auto; try (now left); try (now right); try (right; eauto; fail).

(** Every run of [doDynDNSUpdate] is: the check, the ping request, the
    lookup, the edit request and a last log line, each present or not; there
    is no lookup without the ping request and no edit without the lookup. *)
Lemma update_shape (fl : Flags) (c : Client) (records : list api.Record_)
    (w : World) :
  exists t0 tp tl te tz,
    snd (doDynDNSUpdate fl c records w) = t0 ++ tp ++ tl ++ te ++ tz
    /\ checkPart fl t0 /\ pingPart c tp /\ lookupPart fl c tl
    /\ editPart fl c te /\ logPart tz
    /\ (tl <> [] -> tp <> []) /\ (te <> [] -> tl <> []).
Proof.
  destruct (checkURL_shape fl w) as [o [t0 [Hc [H0 _]]]].
  destruct o as [[|]|f a].
  - rewrite (update_skipped fl c records w t0 Hc).
    exists t0, [], [], [], []. rewrite !app_nil_r.
    shape_side; try exact H0; intros H; now elim H.
  - destruct (Ping_shape c w) as [[p|e] [tp [Hp Hpp]]].
    + rewrite (update_after_ping fl c records w t0 tp p Hc Hp). cbv zeta.
      set (tl := [EvLog ("Your IP: %s" ++ LF) [AStr (api.YourIP p)];
                  EvLookupHost (dotjoin (ddSubdomain fl) (Domain (Config c)))]).
      assert (Hl : lookupPart fl c tl) by (right; unfold tl; eauto).
      assert (Hpre : forall te tz,
                 (t0 ++ tp ++ tl) ++ te ++ tz = t0 ++ tp ++ tl ++ te ++ tz)
        by (intros; now rewrite <- !app_assoc).
      assert (Hpne : tp <> [])
        by (destruct Hpp as [->| ->]; discriminate).
      assert (Hlne : tl <> []) by (unfold tl; discriminate).
      assert (Hpp' : pingPart c tp) by now right.
      destruct (lookup_host w _) as [addrs|e].
      * destruct (addrMatches addrs (api.YourIP p)).
        { exists t0, tp, tl, []. eexists. cbn [snd].
          split; [apply (Hpre [])|].
          shape_side. }
        destruct (recordExists records "A" _ (api.YourIP p)).
        { exists t0, tp, tl, []. eexists. cbn [snd].
          split; [apply (Hpre [])|].
          shape_side. }
        destruct (passesIPv4Check (api.YourIP p)).
        -- destruct (EditAllA_shape c (ddSubdomain fl) (api.YourIP p) w)
             as [[x|e] [te [He Hte]]]; rewrite He.
           ++ exists t0, tp, tl, te. eexists. cbn [snd].
              split; [apply Hpre|].
              shape_side.
           ++ exists t0, tp, tl, te, []. cbn [snd].
              split; [now rewrite app_nil_r, <- !app_assoc|].
              shape_side.
        -- exists t0, tp, tl, [], []. cbn [snd].
           split; [now rewrite ?app_nil_r, <- ?app_assoc|].
           shape_side.
      * exists t0, tp, tl, []. eexists. cbn [snd].
        split; [apply (Hpre [])|].
        shape_side.
    + rewrite (update_ping_failed fl c records w t0 tp e Hc Hp).
      exists t0, tp, [], [], []. cbn [snd]. rewrite !app_nil_r.
      shape_side; intros H; now elim H.
  - rewrite (update_check_fatal fl c records w f a t0 Hc).
    exists t0, [], [], [], []. rewrite !app_nil_r.
    shape_side; try exact H0; intros H; now elim H.
Qed.

Lemma checkPart_counts (fl : Flags) (t : Trace) :
  checkPart fl t ->
  List.length (gets t) <= 1 /\ pings t = [] /\ lookups t = []
  /\ writes t = [] /\ posts t = [].
Proof.
  intros [->|[f [a ->]]]; cbn; repeat split; lia.
Qed.

Lemma pingPart_counts (c : Client) (t : Trace) :
  pingPart c t ->
  gets t = [] /\ List.length (pings t) <= 1 /\ lookups t = []
  /\ writes t = [] /\ List.length (posts t) <= 1.
Proof.
  intros [->|[->| ->]]; cbn; repeat split; lia.
Qed.

Lemma lookupPart_counts (fl : Flags) (c : Client) (t : Trace) :
  lookupPart fl c t ->
  gets t = [] /\ pings t = [] /\ List.length (lookups t) <= 1
  /\ writes t = [] /\ posts t = [].
Proof.
  intros [->|[f [a ->]]]; cbn; repeat split; lia.
Qed.

Lemma editPart_counts (fl : Flags) (c : Client) (t : Trace) :
  editPart fl c t ->
  gets t = [] /\ pings t = [] /\ lookups t = []
  /\ List.length (writes t) <= 1 /\ List.length (posts t) <= 1.
Proof.
  intros [->|[ip [->| ->]]]; cbn; repeat split; lia.
Qed.

Lemma logPart_counts (t : Trace) :
  logPart t ->
  gets t = [] /\ pings t = [] /\ lookups t = [] /\ writes t = []
  /\ posts t = [].
Proof.
  intros [->|[f [a ->]]]; cbn; repeat split.
Qed.

Lemma gets_app (t1 t2 : Trace) : gets (t1 ++ t2) = gets t1 ++ gets t2.
Proof. apply filter_app. Qed.

(** X1. Whatever the world, the flags and the snapshot, one run of the
    update procedure makes at most one check GET, one ping call, one host
    lookup and one write call, and sends at most two POSTs. *)
Theorem run_makes_each_call_at_most_once :
  forall (w : World) (fl : Flags) (c : Client) (records : list api.Record_),
    List.length (gets (snd (doDynDNSUpdate fl c records w))) <= 1
    /\ List.length (pings (snd (doDynDNSUpdate fl c records w))) <= 1
    /\ List.length (lookups (snd (doDynDNSUpdate fl c records w))) <= 1
    /\ List.length (writes (snd (doDynDNSUpdate fl c records w))) <= 1
    /\ List.length (posts (snd (doDynDNSUpdate fl c records w))) <= 2.
Proof.
  intros w fl c records.
  destruct (update_shape fl c records w)
    as [t0 [tp [tl [te [tz [-> [H0 [Hp [Hl [He [Hz _]]]]]]]]]]].
  destruct (checkPart_counts fl t0 H0) as [G0 [P0 [L0 [W0 S0]]]].
  destruct (pingPart_counts c tp Hp) as [G1 [P1 [L1 [W1 S1]]]].
  destruct (lookupPart_counts fl c tl Hl) as [G2 [P2 [L2 [W2 S2]]]].
  destruct (editPart_counts fl c te He) as [G3 [P3 [L3 [W3 S3]]]].
  destruct (logPart_counts tz Hz) as [G4 [P4 [L4 [W4 S4]]]].
  rewrite !gets_app, !pings_app, !lookups_app, !writes_app, !posts_app.
  rewrite G1, G2, G3, G4, P0, P2, P3, P4, L0, L1, L3, L4, W0, W1, W2, W4,
    S0, S2, S4.
  rewrite !length_app. cbn [List.length app]. repeat split; lia.
Qed.


Lemma doPrintRecords_unfold (fl : Flags) (c : Client) (w : World) :
  doPrintRecords fl c w
  = match RetrieveAll c w with
    | (Ret (OK resp), t) =>
        (Ret (api.Records resp),
         t ++ [listingEvent
                 (listing w (strings.Split (printRecords fl) ","%char)
                          (api.Records resp))])
    | (Ret (Error e), t) => (Fatal "RetrieveAll failed: %v" [AStr e], t)
    | (Fatal f a, t) => (Fatal f a, t)
    end.
Proof.
  unfold doPrintRecords, listing. rewrite bind_ask.
  pose proof (include_test_listed w (strings.Split (printRecords fl) ","%char))
    as Htest.
  destruct (includeLoop w (strings.Split (printRecords fl) ","%char) false
              (fun _ => false)) as [ia inc].
  simpl in Htest.
  unfold bind at 1. destruct (RetrieveAll c w) as [[[resp|e]|f a] t].
  - rewrite recordLinesLoop_filter, (filter_ext _ _ Htest). reflexivity.
  - cbn. now rewrite app_nil_r.
  - reflexivity.
Qed.




(** X3. In every run the events come in one order: the check GET, the ping
    request, the host lookup, the edit request, a closing log line; any of
    them may be missing, but there is no lookup without the ping request
    before it and no edit request without the lookup before it. *)
Theorem run_is_check_ping_lookup_edit_in_order :
  forall (w : World) (fl : Flags) (c : Client) (records : list api.Record_),
    exists t0 tp tl te tz,
      snd (doDynDNSUpdate fl c records w) = t0 ++ tp ++ tl ++ te ++ tz
      /\ (t0 = [] \/ exists f a, t0 = [EvGet (ddCheckURL fl); EvLog f a])
      /\ (tp = [] \/ tp = [EvCall (pingURL c) (pingRequest c)]
          \/ tp = [EvCall (pingURL c) (pingRequest c);
                   EvPost (pingURL c) (pingRequest c)])
      /\ (tl = [] \/
          exists f a,
            tl = [EvLog f a;
                  EvLookupHost (dotjoin (ddSubdomain fl) (Domain (Config c)))])
      /\ (te = [] \/
          exists ip,
            te = [EvCall (editURL c (ddSubdomain fl)) (editRequest c ip)]
            \/ te = [EvCall (editURL c (ddSubdomain fl)) (editRequest c ip);
                     EvPost (editURL c (ddSubdomain fl)) (editRequest c ip)])
      /\ (tz = [] \/ exists f a, tz = [EvLog f a])
      /\ (tl <> [] -> tp <> []) /\ (te <> [] -> tl <> []).
Proof.
  intros w fl c records. exact (update_shape fl c records w).
Qed.

(** ** The exits of the update procedure *)

(** X4. When the health check is silent and ping returns an error, the run
    is fatal with the message [Ping failed] carrying that error; it makes no
    lookup and no write call. *)
Theorem ping_error_is_fatal_before_lookup :
  forall (w : World) (fl : Flags) (c : Client) (records : list api.Record_)
         (e : string),
    healthCheckSilent w fl ->
    fst (Ping c w) = Ret (Error e) ->
    fst (doDynDNSUpdate fl c records w) = Fatal "Ping failed: %v" [AStr e]
    /\ lookups (snd (doDynDNSUpdate fl c records w)) = []
    /\ writes (snd (doDynDNSUpdate fl c records w)) = [].
Proof.
  intros w fl c records e Hs Hping.
  destruct (checkURL_silent fl w Hs) as [t0 [Hc [Hw0 [_ [Hl0 _]]]]].
  destruct (Ping_trace c w) as [r [tp [Hp [Hwp [Hlp _]]]]].
  rewrite Hp in Hping. simpl in Hping. injection Hping as ->.
  rewrite (update_ping_failed fl c records w t0 tp e Hc Hp). cbn [fst snd].
  split; [reflexivity|].
  now rewrite lookups_app, writes_app, Hl0, Hlp, Hw0, Hwp.
Qed.

Lemma ping_error_is_fatal_before_lookup_witness :
  fst (doDynDNSUpdate (flags EmptyString true "www" EmptyString)
         exampleClient [] offlineWorld)
  = Fatal "Ping failed: %v" [AStr "POST failed: dial tcp: no route to host"]
  /\ lookups (snd (doDynDNSUpdate (flags EmptyString true "www" EmptyString)
                     exampleClient [] offlineWorld)) = []
  /\ writes (snd (doDynDNSUpdate (flags EmptyString true "www" EmptyString)
                    exampleClient [] offlineWorld)) = [].
Proof.
  apply ping_error_is_fatal_before_lookup.
  - left. reflexivity.
  - reflexivity.
Defined.

(** X5. When the health check is silent, ping succeeds and the host
    lookup fails, the run logs the failed lookup and is fatal with the
    request to set up an A record first; it makes no write call. *)
Theorem lookup_error_is_fatal_before_write :
  forall (w : World) (fl : Flags) (c : Client) (records : list api.Record_)
         (p : api.PingResponse) (e : string),
    healthCheckSilent w fl ->
    pingSucceeds w c p ->
    lookup_host w (dotjoin (ddSubdomain fl) (Domain (Config c))) = Error e ->
    fst (doDynDNSUpdate fl c records w)
    = Fatal "Please set up an A record before running in -dyndns mode" []
    /\ In (EvLog "Failed to look up %q: %v"
                 [AStr (dotjoin (ddSubdomain fl) (Domain (Config c))); AStr e])
          (snd (doDynDNSUpdate fl c records w))
    /\ writes (snd (doDynDNSUpdate fl c records w)) = [].
Proof.
  intros w fl c records p e Hs Hping Hl.
  destruct (checkURL_silent fl w Hs) as [t0 [Hc [Hw0 _]]].
  destruct (Ping_trace c w) as [r [tp [Hp [Hwp _]]]].
  unfold pingSucceeds in Hping. rewrite Hp in Hping. simpl in Hping.
  injection Hping as ->.
  rewrite (update_after_ping fl c records w t0 tp p Hc Hp). cbv zeta.
  rewrite Hl. cbn [fst snd]. split; [reflexivity|]. split.
  - apply in_or_app. right. now left.
  - now rewrite writes_app, writes_pre.
Qed.

Lemma lookup_error_is_fatal_before_write_witness :
  fst (doDynDNSUpdate (flags EmptyString true "www" EmptyString)
         exampleClient []
         (exampleWorld refused (OK ok200) "203.0.113.7"
                       (Error "no such host") []))
  = Fatal "Please set up an A record before running in -dyndns mode" []
  /\ In (EvLog "Failed to look up %q: %v"
               [AStr "www.example.com"; AStr "no such host"])
        (snd (doDynDNSUpdate (flags EmptyString true "www" EmptyString)
                exampleClient []
                (exampleWorld refused (OK ok200) "203.0.113.7"
                              (Error "no such host") [])))
  /\ writes (snd (doDynDNSUpdate (flags EmptyString true "www" EmptyString)
                exampleClient []
                (exampleWorld refused (OK ok200) "203.0.113.7"
                              (Error "no such host") []))) = [].
Proof.
  apply (lookup_error_is_fatal_before_write
           (exampleWorld refused (OK ok200) "203.0.113.7"
                         (Error "no such host") [])
           (flags EmptyString true "www" EmptyString) exampleClient []
           {| api.Ping_Status := success; api.YourIP := "203.0.113.7" |}
           "no such host").
  - left. reflexivity.
  - reflexivity.
  - reflexivity.
Defined.

Lemma update_noop_when_resolved :
  forall (w : World) (fl : Flags) (c : Client) (records : list api.Record_)
         (p : api.PingResponse) (addrs : list string),
    healthCheckSilent w fl ->
    pingSucceeds w c p ->
    lookup_host w (dotjoin (ddSubdomain fl) (Domain (Config c))) = OK addrs ->
    In (api.YourIP p) addrs ->
    fst (doDynDNSUpdate fl c records w) = Ret tt
    /\ writes (snd (doDynDNSUpdate fl c records w)) = [].
Proof.
  intros w fl c records p addrs Hs Hping Hl Hin.
  destruct (checkURL_silent fl w Hs) as [t0 [Hc [Hw0 _]]].
  destruct (Ping_trace c w) as [r [tp [Hp [Hwp _]]]].
  unfold pingSucceeds in Hping. rewrite Hp in Hping. simpl in Hping.
  injection Hping as ->.
  rewrite (update_after_ping fl c records w t0 tp p Hc Hp). cbv zeta.
  apply addrMatches_In in Hin. rewrite Hl, Hin. cbn [fst snd].
  split; [reflexivity|]. now rewrite writes_app, writes_pre.
Qed.

Lemma update_noop_when_known :
  forall (w : World) (fl : Flags) (c : Client) (records : list api.Record_)
         (p : api.PingResponse) (addrs : list string) (r : api.Record_),
    healthCheckSilent w fl ->
    pingSucceeds w c p ->
    lookup_host w (dotjoin (ddSubdomain fl) (Domain (Config c))) = OK addrs ->
    ~ In (api.YourIP p) addrs ->
    In r records ->
    api.Type_ r = "A" ->
    api.Name r = dotjoin (ddSubdomain fl) (Domain (Config c)) ->
    api.Content r = api.YourIP p ->
    fst (doDynDNSUpdate fl c records w) = Ret tt
    /\ writes (snd (doDynDNSUpdate fl c records w)) = []
    /\ In (EvLog "An A record for %s with IP %s already exists. No update required."
                 [AStr (dotjoin (ddSubdomain fl) (Domain (Config c)));
                  AStr (api.YourIP p)])
          (snd (doDynDNSUpdate fl c records w)).
Proof.
  intros w fl c records p addrs r Hs Hping Hl Hnot Hin Ht Hn Hcont.
  destruct (checkURL_silent fl w Hs) as [t0 [Hc [Hw0 _]]].
  destruct (Ping_trace c w) as [r' [tp [Hp [Hwp _]]]].
  unfold pingSucceeds in Hping. rewrite Hp in Hping. simpl in Hping.
  injection Hping as ->.
  rewrite (update_after_ping fl c records w t0 tp p Hc Hp). cbv zeta.
  rewrite Hl.
  destruct (addrMatches addrs (api.YourIP p)) eqn:Ha;
    [apply addrMatches_In in Ha; contradiction|].
  assert (Hr : recordExists records "A"
                 (dotjoin (ddSubdomain fl) (Domain (Config c)))
                 (api.YourIP p) = true)
    by (apply recordExists_true; exists r; auto).
  rewrite Hr. cbn [fst snd]. split; [reflexivity|]. split.
  - now rewrite writes_app, writes_pre.
  - apply in_or_app. right. now left.
Qed.


(** X6. When the health check is silent, ping succeeds, the lookup
    succeeds without the current IP, and the snapshot holds an A record with
    the qualified name and the current IP, the run returns without a write
    call; the address is not validated on this path. *)
Theorem known_record_is_noop :
  forall (w : World) (fl : Flags) (c : Client) (records : list api.Record_)
         (p : api.PingResponse) (addrs : list string) (r : api.Record_),
    healthCheckSilent w fl ->
    pingSucceeds w c p ->
    lookup_host w (dotjoin (ddSubdomain fl) (Domain (Config c))) = OK addrs ->
    ~ In (api.YourIP p) addrs ->
    In r records ->
    api.Type_ r = "A" ->
    api.Name r = dotjoin (ddSubdomain fl) (Domain (Config c)) ->
    api.Content r = api.YourIP p ->
    fst (doDynDNSUpdate fl c records w) = Ret tt
    /\ writes (snd (doDynDNSUpdate fl c records w)) = []
    /\ In (EvLog "An A record for %s with IP %s already exists. No update required."
                 [AStr (dotjoin (ddSubdomain fl) (Domain (Config c)));
                  AStr (api.YourIP p)])
          (snd (doDynDNSUpdate fl c records w)).
Proof. exact update_noop_when_known. Qed.

Lemma known_record_is_noop_witness :
  fst (doDynDNSUpdate (flags EmptyString true "www" EmptyString)
         exampleClient [record "www.example.com" "A" "not an address"]
         (exampleWorld refused (OK ok200) "not an address"
                       (OK ["198.51.100.1"]) []))
  = Ret tt
  /\ writes (snd (doDynDNSUpdate (flags EmptyString true "www" EmptyString)
         exampleClient [record "www.example.com" "A" "not an address"]
         (exampleWorld refused (OK ok200) "not an address"
                       (OK ["198.51.100.1"]) []))) = []
  /\ In (EvLog "An A record for %s with IP %s already exists. No update required."
               [AStr "www.example.com"; AStr "not an address"])
        (snd (doDynDNSUpdate (flags EmptyString true "www" EmptyString)
         exampleClient [record "www.example.com" "A" "not an address"]
         (exampleWorld refused (OK ok200) "not an address"
                       (OK ["198.51.100.1"]) []))).
Proof.
  apply (known_record_is_noop
           (exampleWorld refused (OK ok200) "not an address"
                         (OK ["198.51.100.1"]) [])
           (flags EmptyString true "www" EmptyString) exampleClient
           [record "www.example.com" "A" "not an address"]
           {| api.Ping_Status := success; api.YourIP := "not an address" |}
           ["198.51.100.1"]
           (record "www.example.com" "A" "not an address")).
  - left. reflexivity.
  - reflexivity.
  - reflexivity.
  - intros [H|[]]. discriminate H.
  - left. reflexivity.
  - reflexivity.
  - reflexivity.
  - reflexivity.
Defined.

Lemma string_length_append (s t : string) :
  String.length (s ++ t) = String.length s + String.length t.
Proof. induction s as [|a s IH]; simpl; [reflexivity | now rewrite IH]. Qed.

Lemma label_is_not_qualified (subdom domain : string) :
  subdom <> EmptyString -> subdom <> dotjoin subdom domain.
Proof.
  intros Hs H. unfold dotjoin in H.
  destruct (String.eqb_spec subdom EmptyString) as [E|_]; [contradiction|].
  apply (f_equal String.length) in H.
  rewrite string_length_append in H. simpl in H. lia.
Qed.

(** X7. The known-records step compares record names with the qualified
    name: for a non-empty subdomain, a snapshot whose records are all named
    by the bare subdomain label never stops the update, so with a silent
    health check, a successful ping, a lookup without the current IP and a
    valid IPv4 address the edit call is made. *)
Theorem bare_label_records_do_not_stop_the_update :
  forall (w : World) (fl : Flags) (c : Client) (records : list api.Record_)
         (p : api.PingResponse) (addrs : list string),
    ddSubdomain fl <> EmptyString ->
    (forall r, In r records -> api.Name r = ddSubdomain fl) ->
    healthCheckSilent w fl ->
    pingSucceeds w c p ->
    lookup_host w (dotjoin (ddSubdomain fl) (Domain (Config c))) = OK addrs ->
    ~ In (api.YourIP p) addrs ->
    IPv4Literal (api.YourIP p) ->
    recordExists records "A" (dotjoin (ddSubdomain fl) (Domain (Config c)))
                 (api.YourIP p) = false
    /\ writes (snd (doDynDNSUpdate fl c records w))
       = [EvCall (editURL c (ddSubdomain fl)) (editRequest c (api.YourIP p))].
Proof.
  intros w fl c records p addrs Hsub Hnames Hs Hping Hl Hnot Hip.
  assert (Hr : recordExists records "A"
                 (dotjoin (ddSubdomain fl) (Domain (Config c)))
                 (api.YourIP p) = false).
  { apply recordExists_false. intros r Hin [_ [Hn _]].
    rewrite (Hnames r Hin) in Hn.
    exact (label_is_not_qualified _ _ Hsub Hn). }
  split; [exact Hr|].
  apply (update_writes_when_reached fl c records w p addrs Hs Hping Hl).
  - destruct (addrMatches addrs (api.YourIP p)) eqn:E; [|reflexivity].
    apply addrMatches_In in E. contradiction.
  - exact Hr.
  - now apply IPv4Literal_passes.
Qed.

Lemma bare_label_records_do_not_stop_the_update_witness :
  recordExists [record "www" "A" "203.0.113.7"] "A" "www.example.com"
               "203.0.113.7" = false
  /\ writes (snd (doDynDNSUpdate (flags EmptyString true "www" EmptyString)
                    exampleClient [record "www" "A" "203.0.113.7"]
                    staleWorld))
     = [EvCall (editURL exampleClient "www")
               (editRequest exampleClient "203.0.113.7")].
Proof.
  apply (bare_label_records_do_not_stop_the_update staleWorld
           (flags EmptyString true "www" EmptyString) exampleClient
           [record "www" "A" "203.0.113.7"]
           {| api.Ping_Status := success; api.YourIP := "203.0.113.7" |}
           ["198.51.100.1"]).
  - discriminate.
  - intros r [<-|[]]. reflexivity.
  - left. reflexivity.
  - reflexivity.
  - reflexivity.
  - intros [H|[]]. discriminate H.
  - exists 203, 0, 113, 7. repeat split; try lia.
Defined.

(** X8. At the write step (silent health check, successful ping, lookup
    without the current IP, no matching record in the snapshot) an address
    for which [net.ParseIP] gives nil or [To4] gives nil makes the run fatal
    with [Not a valid IPv4 address], and no write call is made. *)
Theorem failed_address_check_is_fatal_without_write :
  forall (w : World) (fl : Flags) (c : Client) (records : list api.Record_)
         (p : api.PingResponse) (addrs : list string),
    healthCheckSilent w fl ->
    pingSucceeds w c p ->
    lookup_host w (dotjoin (ddSubdomain fl) (Domain (Config c))) = OK addrs ->
    ~ In (api.YourIP p) addrs ->
    recordExists records "A" (dotjoin (ddSubdomain fl) (Domain (Config c)))
                 (api.YourIP p) = false ->
    (net.ParseIP (api.YourIP p) = None
     \/ exists ip, net.ParseIP (api.YourIP p) = Some ip /\ net.To4 ip = None) ->
    fst (doDynDNSUpdate fl c records w)
    = Fatal "Not a valid IPv4 address: %s" [AStr (api.YourIP p)]
    /\ writes (snd (doDynDNSUpdate fl c records w)) = [].
Proof.
  intros w fl c records p addrs Hs Hping Hl Hnot Hr Hbad.
  apply (rejected_address_aborts fl c records w p addrs Hs Hping Hl);
    [|exact Hr|].
  - destruct (addrMatches addrs (api.YourIP p)) eqn:E; [|reflexivity].
    apply addrMatches_In in E. contradiction.
  - unfold passesIPv4Check.
    destruct Hbad as [->|[ip [-> ->]]]; reflexivity.
Qed.

Lemma failed_address_check_is_fatal_without_write_witness :
  fst (doDynDNSUpdate (flags EmptyString true "www" EmptyString)
         exampleClient []
         (exampleWorld refused (OK ok200) "2001:db8::1"
                       (OK ["198.51.100.1"]) []))
  = Fatal "Not a valid IPv4 address: %s" [AStr "2001:db8::1"]
  /\ writes (snd (doDynDNSUpdate (flags EmptyString true "www" EmptyString)
         exampleClient []
         (exampleWorld refused (OK ok200) "2001:db8::1"
                       (OK ["198.51.100.1"]) []))) = [].
Proof.
  apply (failed_address_check_is_fatal_without_write
           (exampleWorld refused (OK ok200) "2001:db8::1"
                         (OK ["198.51.100.1"]) [])
           (flags EmptyString true "www" EmptyString) exampleClient []
           {| api.Ping_Status := success; api.YourIP := "2001:db8::1" |}
           ["198.51.100.1"]).
  - left. reflexivity.
  - reflexivity.
  - reflexivity.
  - intros [H|[]]. discriminate H.
  - reflexivity.
  - right. eexists. split; vm_compute; reflexivity.
Defined.

(** X9. At the write step with an accepted address, the result of
    [EditAllA] decides how the run ends: an error makes it fatal with
    [Failed to update A record] carrying that error; a response makes it
    return, its last event being the log line that names the bare domain and
    the new address. *)
Theorem edit_result_decides_the_outcome :
  forall (w : World) (fl : Flags) (c : Client) (records : list api.Record_),
    reachesWrite w fl c records ->
    exists p,
      pingSucceeds w c p
      /\ (forall e,
            fst (EditAllA c (ddSubdomain fl) (api.YourIP p) w)
            = Ret (Error e) ->
            fst (doDynDNSUpdate fl c records w)
            = Fatal "Failed to update A record: %v" [AStr e])
      /\ (forall x,
            fst (EditAllA c (ddSubdomain fl) (api.YourIP p) w)
            = Ret (OK x) ->
            fst (doDynDNSUpdate fl c records w) = Ret tt
            /\ exists t,
                 snd (doDynDNSUpdate fl c records w)
                 = t ++ [EvLog "Updated A record for %s to %s"
                               [AStr (Domain (Config c));
                                AStr (api.YourIP p)]]).
Proof.
  intros w fl c records [Hs [p [addrs [Hping [Hl [Ha [Hr Hv]]]]]]].
  exists p. split; [exact Hping|].
  destruct (checkURL_silent fl w Hs) as [t0 [Hc _]].
  destruct (Ping_trace c w) as [r [tp [Hp _]]].
  unfold pingSucceeds in Hping. rewrite Hp in Hping. simpl in Hping.
  injection Hping as ->.
  rewrite (update_after_ping fl c records w t0 tp p Hc Hp). cbv zeta.
  rewrite Hl, Ha, Hr, Hv.
  destruct (EditAllA c (ddSubdomain fl) (api.YourIP p) w)
    as [[[x|e]|f a] te]; cbn [fst snd]; split;
    try (intros ? H; discriminate H).
  - intros x' _. split; [reflexivity|]. eexists.
    rewrite !app_assoc. reflexivity.
  - intros e' H. injection H as ->. reflexivity.
Qed.

Lemma edit_result_decides_the_outcome_witness :
  fst (doDynDNSUpdate (flags EmptyString true "www" EmptyString)
         exampleClient [] refusingWorld)
  = Fatal "Failed to update A record: %v"
          [AStr "response status 503 Service Unavailable. Body: busy)"].
Proof.
  destruct (edit_result_decides_the_outcome refusingWorld
              (flags EmptyString true "www" EmptyString) exampleClient [])
    as [p [Hp [Herr _]]].
  - split; [left; reflexivity|].
    exists {| api.Ping_Status := success; api.YourIP := "203.0.113.7" |},
           ["198.51.100.1"].
    repeat split.
  - unfold pingSucceeds in Hp. injection Hp as <-.
    apply Herr. reflexivity.
Defined.

(** ** The request helper and the client methods *)

(** X10. [doRequest] returns a decoded response exactly when every step
    succeeds: the request is encoded, the HTTP request is created, the
    transport returns a response of status 200, and the decoder accepts its
    body; the value returned is then the decoder's. *)
Theorem doRequest_succeeds_iff_every_step_does :
  forall (Resp : Type) (decode : Body -> Res Resp) (c : Client) (u : URL)
         (req : Payload) (w : World) (resp : Resp),
    fst (doRequest decode c u req w) = Ret (OK resp)
    <-> (json_encode_err w req = None
         /\ new_request_err w "POST" u = None
         /\ exists response,
              http_do w "POST" u (Some req) = OK response
              /\ StatusCode response = 200%Z
              /\ decode (RespBody response) = OK resp).
Proof.
  intros Resp decode c u req w resp. rewrite doRequest_unfold.
  destruct (json_encode_err w req) as [e|].
  { split; [discriminate | intros [H _]; discriminate H]. }
  destruct (new_request_err w "POST" u) as [e|].
  { split; [discriminate | intros [_ [H _]]; discriminate H]. }
  cbn [fst].
  destruct (http_do w "POST" u (Some req)) as [response|e].
  - unfold StatusOK.
    destruct (Z.eqb_spec (StatusCode response) 200) as [Hs|Hs]; cbn [negb].
    + destruct (decode (RespBody response)) as [x|e] eqn:Hd; split.
      * intros H. injection H as ->. repeat split. eauto.
      * intros [_ [_ [r' [Hr [_ Hx]]]]]. injection Hr as <-.
        rewrite Hd in Hx. now injection Hx as ->.
      * discriminate.
      * intros [_ [_ [r' [Hr [_ Hx]]]]]. injection Hr as <-.
        rewrite Hd in Hx. discriminate Hx.
    + split.
      * destruct (ReadAll (RespBody response)); discriminate.
      * intros [_ [_ [r' [Hr [Hc _]]]]]. injection Hr as <-. contradiction.
  - split; [discriminate|].
    intros [_ [_ [r' [Hr _]]]]. discriminate Hr.
Qed.

(** X11. When the request cannot be encoded, or the HTTP request cannot
    be created, [doRequest] returns an error naming that step and nothing is
    sent: the run holds no POST. *)
Theorem doRequest_sends_nothing_when_the_request_cannot_be_built :
  forall (Resp : Type) (decode : Body -> Res Resp) (c : Client) (u : URL)
         (req : Payload) (w : World),
    (forall e,
       json_encode_err w req = Some e ->
       doRequest decode c u req w
       = (Ret (Error ("cannot marshal request: " ++ e)), [EvCall u req]))
    /\ (forall e,
          json_encode_err w req = None ->
          new_request_err w "POST" u = Some e ->
          doRequest decode c u req w
          = (Ret (Error ("failed to create request: " ++ e)), [EvCall u req]))
    /\ (json_encode_err w req <> None \/ new_request_err w "POST" u <> None ->
        posts (snd (doRequest decode c u req w)) = []).
Proof.
  intros Resp decode c u req w. rewrite doRequest_unfold. repeat split.
  - intros e ->. reflexivity.
  - intros e -> ->. reflexivity.
  - intros [H|H].
    + destruct (json_encode_err w req); [reflexivity | now elim H].
    + destruct (json_encode_err w req); [reflexivity|].
      destruct (new_request_err w "POST" u); [reflexivity | now elim H].
Qed.

(** X12. [CreateA] makes one request, to the path [dns/create] below the
    base URL with no domain element in it; its body names the subdomain, the
    type A and the address and leaves TTL and priority empty; it is a write
    call, sends at most one POST, and returns to its caller. *)
Theorem CreateA_requests_dns_create_without_a_domain :
  forall (c : Client) (subdomain ip : string) (w : World),
    exists r t,
      CreateA c subdomain ip w = (Ret r, t)
      /\ (t = [EvCall (JoinPath (BaseURL c) ["dns/create"])
                      (UpdateReq {| api.Req_Keys := Keys (Config c);
                                    api.Req_Name := subdomain;
                                    api.Req_Type := "A";
                                    api.Req_Content := ip;
                                    api.Req_TTL := EmptyString;
                                    api.Req_Prio := EmptyString |})]
          \/ t = [EvCall (JoinPath (BaseURL c) ["dns/create"])
                         (UpdateReq {| api.Req_Keys := Keys (Config c);
                                       api.Req_Name := subdomain;
                                       api.Req_Type := "A";
                                       api.Req_Content := ip;
                                       api.Req_TTL := EmptyString;
                                       api.Req_Prio := EmptyString |});
                  EvPost (JoinPath (BaseURL c) ["dns/create"])
                         (UpdateReq {| api.Req_Keys := Keys (Config c);
                                       api.Req_Name := subdomain;
                                       api.Req_Type := "A";
                                       api.Req_Content := ip;
                                       api.Req_TTL := EmptyString;
                                       api.Req_Prio := EmptyString |})])
      /\ List.length (writes t) = 1.
Proof.
  intros c subdomain ip w.
  destruct (CreateA_shape c subdomain ip w) as [r [t [E Ht]]].
  exists r, t. split; [exact E|]. split; [exact Ht|].
  destruct Ht as [->| ->]; reflexivity.
Qed.

(** ** The entry point, case by case *)

Lemma ReadClientConfig_result (path : string) (w : World) :
  ReadClientConfig path w
  = (Ret match os_open w path with
         | Error e => Error ("failed to open config file: " ++ e)
         | OK f =>
             match decode_config w f with
             | Error e => Error ("invalid JSON: " ++ e)
             | OK (d, k) => OK {| Domain := d; Keys := k |}
             end
         end, []).
Proof.
  unfold ReadClientConfig. rewrite bind_ask.
  destruct (os_open w path) as [f|e]; [|reflexivity].
  destruct (decode_config w f) as [[d k]|e]; reflexivity.
Qed.

Lemma main_config_failed (fl : Flags) (w : World) (e : string) :
  fst (ReadClientConfig (path_join w [getenv w "HOME"; ".porkbungo"]) w)
  = Ret (Error e) ->
  main fl w = (Fatal "Cannot read config: %v" [AStr e], []).
Proof.
  intros H. unfold main. rewrite bind_ask. unfold bind at 1.
  rewrite ReadClientConfig_result in *.
  match goal with
  | H : fst (Ret ?m, _) = _ |- _ => remember m as x eqn:Ex
  end.
  cbn [fst] in H. injection H as ->. reflexivity.
Qed.

(** [main] after the configuration has been read. *)
Lemma main_configured (fl : Flags) (w : World) (config : ClientConfig) :
  fst (ReadClientConfig (path_join w [getenv w "HOME"; ".porkbungo"]) w)
  = Ret (OK config) ->
  main fl w
  = if String.eqb (printRecords fl) EmptyString then
      if dyndns fl then
        (fst (doDynDNSUpdate fl (NewClient config true) [] w),
         configEvent w (Domain config)
         :: snd (doDynDNSUpdate fl (NewClient config true) [] w))
      else (Ret tt, [configEvent w (Domain config)])
    else
      match doPrintRecords fl (NewClient config true) w with
      | (Ret records, tpr) =>
          if dyndns fl then
            (fst (doDynDNSUpdate fl (NewClient config true) records w),
             configEvent w (Domain config)
             :: tpr ++ snd (doDynDNSUpdate fl (NewClient config true)
                                           records w))
          else (Ret tt, configEvent w (Domain config) :: tpr)
      | (Fatal f a, tpr) => (Fatal f a, configEvent w (Domain config) :: tpr)
      end.
Proof.
  intros H. unfold main. rewrite bind_ask. unfold bind at 1.
  rewrite ReadClientConfig_result in *.
  match goal with
  | H : fst (Ret ?m, _) = _ |- _ => remember m as x eqn:Ex
  end.
  cbn [fst] in H. injection H as ->. clear Ex.
  unfold bind at 1. unfold Printf at 1, emit at 1. unfold configEvent.
  destruct (String.eqb (printRecords fl) EmptyString); cbn [negb].
  - unfold bind at 1, ret at 1.
    destruct (dyndns fl).
    + destruct (doDynDNSUpdate fl _ [] w) as [o t]. reflexivity.
    + reflexivity.
  - unfold bind at 1.
    destruct (doPrintRecords fl _ w) as [[records|f a] tpr].
    + destruct (dyndns fl).
      * destruct (doDynDNSUpdate fl _ records w) as [o t]. reflexivity.
      * cbn. now rewrite app_nil_r.
    + reflexivity.
Qed.

Lemma config_read (w : World) (f : Body) (d : string) (k : api.Keys) :
  os_open w (path_join w [getenv w "HOME"; ".porkbungo"]) = OK f ->
  decode_config w f = OK (d, k) ->
  fst (ReadClientConfig (path_join w [getenv w "HOME"; ".porkbungo"]) w)
  = Ret (OK {| Domain := d; Keys := k |}).
Proof. intros Ho Hd. now rewrite ReadClientConfig_result, Ho, Hd. Qed.

(** X13. When the configuration file cannot be opened, or its content
    cannot be decoded, [main] is fatal with [Cannot read config] carrying
    [failed to open config file] or [invalid JSON] and the cause, whatever
    the flags; nothing else happens: no log line, no request, no lookup. *)
Theorem unreadable_config_is_fatal_before_anything_else :
  forall (w : World) (fl : Flags),
    (forall e,
       os_open w (path_join w [getenv w "HOME"; ".porkbungo"]) = Error e ->
       main fl w
       = (Fatal "Cannot read config: %v"
                [AStr ("failed to open config file: " ++ e)], []))
    /\ (forall f e,
          os_open w (path_join w [getenv w "HOME"; ".porkbungo"]) = OK f ->
          decode_config w f = Error e ->
          main fl w
          = (Fatal "Cannot read config: %v" [AStr ("invalid JSON: " ++ e)],
             [])).
Proof.
  intros w fl. split.
  - intros e He. apply main_config_failed.
    now rewrite ReadClientConfig_result, He.
  - intros f e Hf He. apply main_config_failed.
    now rewrite ReadClientConfig_result, Hf, He.
Qed.

(** X14. With neither [-print] nor [-dyndns], [main] reads the
    configuration, logs it and returns: the log line is its only event. *)
Theorem without_flags_main_only_reads_the_config :
  forall (w : World) (fl : Flags) (f : Body) (d : string) (k : api.Keys),
    os_open w (path_join w [getenv w "HOME"; ".porkbungo"]) = OK f ->
    decode_config w f = OK (d, k) ->
    printRecords fl = EmptyString ->
    dyndns fl = false ->
    main fl w
    = (Ret tt,
       [EvLog "Read config from %s. Running for domain %q."
              [AStr (path_join w [getenv w "HOME"; ".porkbungo"]); AStr d]]).
Proof.
  intros w fl f d k Ho Hd Hp Hdyn.
  rewrite (main_configured fl w _ (config_read w f d k Ho Hd)).
  rewrite Hp, Hdyn. reflexivity.
Qed.

Lemma without_flags_main_only_reads_the_config_witness :
  main (flags EmptyString false EmptyString EmptyString) staleWorld
  = (Ret tt,
     [EvLog "Read config from %s. Running for domain %q."
            [AStr "/home/user/.porkbungo"; AStr "example.com"]]).
Proof.
  apply (without_flags_main_only_reads_the_config staleWorld
           (flags EmptyString false EmptyString EmptyString)
           (Readable "{}") "example.com" exampleKeys);
    reflexivity.
Defined.

(** X15. When [-print] is given and the retrieval returns an error,
    [main] is fatal with [RetrieveAll failed] carrying that error, and the
    update procedure is not started even with [-dyndns]: no ping call, no
    lookup, no write call. *)
Theorem failed_retrieval_stops_main_before_the_update :
  forall (w : World) (fl : Flags) (f : Body) (d : string) (k : api.Keys)
         (e : string),
    os_open w (path_join w [getenv w "HOME"; ".porkbungo"]) = OK f ->
    decode_config w f = OK (d, k) ->
    printRecords fl <> EmptyString ->
    fst (RetrieveAll (NewClient {| Domain := d; Keys := k |} true) w)
    = Ret (Error e) ->
    fst (main fl w) = Fatal "RetrieveAll failed: %v" [AStr e]
    /\ pings (snd (main fl w)) = []
    /\ lookups (snd (main fl w)) = []
    /\ writes (snd (main fl w)) = [].
Proof.
  intros w fl f d k e Ho Hd Hp Hr.
  rewrite (main_configured fl w _ (config_read w f d k Ho Hd)).
  destruct (String.eqb_spec (printRecords fl) EmptyString) as [E|_];
    [contradiction|].
  rewrite doPrintRecords_unfold.
  destruct (RetrieveAll_shape (NewClient {| Domain := d; Keys := k |} true) w)
    as [r [t [E Ht]]].
  rewrite E in *. cbn [fst] in Hr. injection Hr as ->. cbn [fst snd].
  split; [reflexivity|].
  destruct Ht as [->| ->]; repeat split.
Qed.

Lemma failed_retrieval_stops_main_before_the_update_witness :
  fst (main (flags "all" true "www" EmptyString) offlineWorld)
  = Fatal "RetrieveAll failed: %v"
          [AStr "POST failed: dial tcp: no route to host"]
  /\ pings (snd (main (flags "all" true "www" EmptyString) offlineWorld)) = []
  /\ lookups (snd (main (flags "all" true "www" EmptyString) offlineWorld))
     = []
  /\ writes (snd (main (flags "all" true "www" EmptyString) offlineWorld))
     = [].
Proof.
  apply (failed_retrieval_stops_main_before_the_update offlineWorld
           (flags "all" true "www" EmptyString) (Readable "{}")
           "example.com" exampleKeys).
  - reflexivity.
  - reflexivity.
  - discriminate.
  - reflexivity.
Defined.


(** The listing makes the retrieval request and nothing else. *)
Lemma print_trace_quiet (fl : Flags) (c : Client) (w : World) :
  filter isCreate (snd (doPrintRecords fl c w)) = []
  /\ writes (snd (doPrintRecords fl c w)) = []
  /\ pings (snd (doPrintRecords fl c w)) = []
  /\ lookups (snd (doPrintRecords fl c w)) = []
  /\ gets (snd (doPrintRecords fl c w)) = [].
Proof.
  rewrite doPrintRecords_unfold.
  destruct (RetrieveAll_shape c w) as [[resp|e] [t [-> Ht]]]; cbn [snd];
    destruct Ht as [->| ->]; repeat split.
Qed.




(** X18. With [-print] and [-dyndns] together, a retrieved A record with
    the qualified name and the current public IP stops the update even when
    the resolver does not yet answer that IP and whatever types are printed:
    [main] makes no write call. *)
Theorem main_skips_the_write_when_the_retrieved_records_hold_the_address :
  forall (w : World) (fl : Flags) (f : Body) (d : string) (k : api.Keys)
         (resp : api.RecordsResponse) (p : api.PingResponse)
         (addrs : list string) (r : api.Record_),
    os_open w (path_join w [getenv w "HOME"; ".porkbungo"]) = OK f ->
    decode_config w f = OK (d, k) ->
    printRecords fl <> EmptyString ->
    dyndns fl = true ->
    fst (RetrieveAll (NewClient {| Domain := d; Keys := k |} true) w)
    = Ret (OK resp) ->
    healthCheckSilent w fl ->
    pingSucceeds w (NewClient {| Domain := d; Keys := k |} true) p ->
    lookup_host w (dotjoin (ddSubdomain fl) d) = OK addrs ->
    In r (api.Records resp) ->
    api.Type_ r = "A" ->
    api.Name r = dotjoin (ddSubdomain fl) d ->
    api.Content r = api.YourIP p ->
    fst (main fl w) = Ret tt /\ writes (snd (main fl w)) = [].
Proof.
  intros w fl f d k resp p addrs r Ho Hd Hp Hdyn Hr Hs Hping Hl Hin Ht Hn Hc.
  rewrite (main_configured fl w _ (config_read w f d k Ho Hd)).
  destruct (String.eqb_spec (printRecords fl) EmptyString) as [E|_];
    [contradiction|].
  destruct (print_trace_quiet fl (NewClient {| Domain := d; Keys := k |} true) w)
    as [_ [Pw _]].
  rewrite (doPrintRecords_retrieved fl _ w resp Hr) in *. rewrite Hdyn.
  cbn [fst snd] in *.
  set (c := NewClient {| Domain := d; Keys := k |} true) in *.
  assert (Hup : fst (doDynDNSUpdate fl c (api.Records resp) w) = Ret tt
                /\ writes (snd (doDynDNSUpdate fl c (api.Records resp) w)) = []).
  { destruct (in_dec string_dec (api.YourIP p) addrs) as [Hyes|Hno].
    - exact (update_noop_when_resolved w fl c (api.Records resp)
               p addrs Hs Hping Hl Hyes).
    - destruct (update_noop_when_known w fl c (api.Records resp) p addrs r
                  Hs Hping Hl Hno Hin Ht Hn Hc) as [H1 [H2 _]].
      auto. }
  destruct Hup as [Ho' Hw']. split; [exact Ho'|].
  unfold writes in *. cbn [filter isWrite configEvent].
  now rewrite filter_app, Pw, Hw'.
Qed.

Lemma main_skips_the_write_when_the_retrieved_records_hold_the_address_witness :
  fst (main (flags "TXT" true "www" EmptyString)
         (exampleWorld refused (OK ok200) "203.0.113.7" (OK ["198.51.100.1"])
            [record "www.example.com" "A" "203.0.113.7";
             record "example.com" "TXT" "v=spf1 -all"]))
  = Ret tt
  /\ writes (snd (main (flags "TXT" true "www" EmptyString)
         (exampleWorld refused (OK ok200) "203.0.113.7" (OK ["198.51.100.1"])
            [record "www.example.com" "A" "203.0.113.7";
             record "example.com" "TXT" "v=spf1 -all"])))
     = [].
Proof.
  apply (main_skips_the_write_when_the_retrieved_records_hold_the_address
           (exampleWorld refused (OK ok200) "203.0.113.7"
              (OK ["198.51.100.1"])
              [record "www.example.com" "A" "203.0.113.7";
               record "example.com" "TXT" "v=spf1 -all"])
           (flags "TXT" true "www" EmptyString) (Readable "{}")
           "example.com" exampleKeys
           {| api.Records_Status := success;
              api.Records :=
                [record "www.example.com" "A" "203.0.113.7";
                 record "example.com" "TXT" "v=spf1 -all"] |}
           {| api.Ping_Status := success; api.YourIP := "203.0.113.7" |}
           ["198.51.100.1"]
           (record "www.example.com" "A" "203.0.113.7")).
  - reflexivity.
  - reflexivity.
  - discriminate.
  - reflexivity.
  - reflexivity.
  - left. reflexivity.
  - reflexivity.
  - reflexivity.
  - left. reflexivity.
  - reflexivity.
  - reflexivity.
  - reflexivity.
Defined.

(** X19. With [-dyndns] and without [-print], [main] starts the update
    with an empty snapshot: it logs the configuration and then does and ends
    as [doDynDNSUpdate] on the empty record list: no record is retrieved for
    the known-records step to find. *)
Theorem without_print_the_update_runs_on_an_empty_snapshot :
  forall (w : World) (fl : Flags) (f : Body) (d : string) (k : api.Keys),
    os_open w (path_join w [getenv w "HOME"; ".porkbungo"]) = OK f ->
    decode_config w f = OK (d, k) ->
    printRecords fl = EmptyString ->
    dyndns fl = true ->
    main fl w
    = (fst (doDynDNSUpdate fl (NewClient {| Domain := d; Keys := k |} true)
              [] w),
       EvLog "Read config from %s. Running for domain %q."
             [AStr (path_join w [getenv w "HOME"; ".porkbungo"]); AStr d]
       :: snd (doDynDNSUpdate fl (NewClient {| Domain := d; Keys := k |} true)
                 [] w)).
Proof.
  intros w fl f d k Ho Hd Hp Hdyn.
  rewrite (main_configured fl w _ (config_read w f d k Ho Hd)).
  rewrite Hp, Hdyn. reflexivity.
Qed.

Lemma without_print_the_update_runs_on_an_empty_snapshot_witness :
  writes (snd (main (flags EmptyString true "www" EmptyString) staleWorld))
  = [editCall exampleClient "www" "203.0.113.7"].
Proof.
  rewrite (without_print_the_update_runs_on_an_empty_snapshot staleWorld
             (flags EmptyString true "www" EmptyString) (Readable "{}")
             "example.com" exampleKeys eq_refl eq_refl eq_refl eq_refl).
  reflexivity.
Defined.

(** ** The listing filter *)

Lemma filter_all {A : Type} (f : A -> bool) (l : list A) :
  (forall x, f x = true) -> filter f l = l.
Proof.
  intros H. induction l as [|x l IH]; simpl; [reflexivity|].
  now rewrite H, IH.
Qed.

(** X20. After a successful retrieval, when [all] is one of the
    comma-separated names of [-print], every retrieved record is listed, in
    order, whatever the other names are. *)
Theorem print_all_lists_every_record :
  forall (w : World) (fl : Flags) (c : Client) (resp : api.RecordsResponse),
    fst (RetrieveAll c w) = Ret (OK resp) ->
    In "all" (strings.Split (printRecords fl) ","%char) ->
    snd (doPrintRecords fl c w)
    = snd (RetrieveAll c w)
      ++ [listingEvent (map api.Record_String (api.Records resp))].
Proof.
  intros w fl c resp Hr Hall.
  rewrite (doPrintRecords_retrieved fl c w resp Hr). cbn [snd].
  rewrite filter_all; [reflexivity|].
  intros r. unfold listed.
  assert (E : existsb (String.eqb "all")
                (strings.Split (printRecords fl) ","%char) = true).
  { apply existsb_exists. exists "all". split; [exact Hall|].
    apply String.eqb_refl. }
  now rewrite E.
Qed.

Lemma print_all_lists_every_record_witness :
  snd (doPrintRecords (flags "MX,all" false EmptyString EmptyString)
         exampleClient
         (exampleWorld refused (OK ok200) "203.0.113.7" (OK [])
            [record "example.com" "A" "198.51.100.1";
             record "example.com" "TXT" "v=spf1 -all"]))
  = snd (RetrieveAll exampleClient
           (exampleWorld refused (OK ok200) "203.0.113.7" (OK [])
              [record "example.com" "A" "198.51.100.1";
               record "example.com" "TXT" "v=spf1 -all"]))
    ++ [listingEvent ["example.com A 198.51.100.1 600 0 (42)";
                      "example.com TXT v=spf1 -all 600 0 (42)"]].
Proof.
  apply (print_all_lists_every_record
           (exampleWorld refused (OK ok200) "203.0.113.7" (OK [])
              [record "example.com" "A" "198.51.100.1";
               record "example.com" "TXT" "v=spf1 -all"])
           (flags "MX,all" false EmptyString EmptyString) exampleClient
           {| api.Records_Status := success;
              api.Records :=
                [record "example.com" "A" "198.51.100.1";
                 record "example.com" "TXT" "v=spf1 -all"] |}).
  - reflexivity.
  - right. left. reflexivity.
Defined.

(** Facts about single bytes, checked on all 256 of them. *)
Lemma upperByte_comma (c : ascii) :
  Ascii.eqb (strings.upperByte c) ","%char = Ascii.eqb c ","%char.
Proof. destruct c as [[] [] [] [] [] [] [] []]; reflexivity. Qed.

Lemma upperByte_idempotent (c : ascii) :
  strings.upperByte (strings.upperByte c) = strings.upperByte c.
Proof. destruct c as [[] [] [] [] [] [] [] []]; reflexivity. Qed.

Lemma upperByte_ascii (c : ascii) :
  Nat.ltb (nat_of_ascii (strings.upperByte c)) 128
  = Nat.ltb (nat_of_ascii c) 128.
Proof. destruct c as [[] [] [] [] [] [] [] []]; reflexivity. Qed.

Lemma upperByte_not_a (c : ascii) : strings.upperByte c <> "a"%char.
Proof. destruct c as [[] [] [] [] [] [] [] []]; discriminate. Qed.

Lemma upperASCII_idempotent (s : string) :
  strings.upperASCII (strings.upperASCII s) = strings.upperASCII s.
Proof.
  induction s as [|c s IH]; simpl; [reflexivity|].
  now rewrite upperByte_idempotent, IH.
Qed.

Lemma upperASCII_isASCII (s : string) :
  strings.isASCII (strings.upperASCII s) = strings.isASCII s.
Proof.
  induction s as [|c s IH]; simpl; [reflexivity|].
  now rewrite upperByte_ascii, IH.
Qed.

Lemma upperASCII_not_all (s : string) : strings.upperASCII s <> "all".
Proof.
  destruct s as [|c s]; simpl; [discriminate|].
  intros H. injection H as H _. exact (upperByte_not_a c H).
Qed.

Lemma Split_upperASCII (s : string) :
  strings.Split (strings.upperASCII s) ","%char
  = map strings.upperASCII (strings.Split s ","%char).
Proof.
  induction s as [|c s IH]; simpl; [reflexivity|].
  rewrite upperByte_comma, IH.
  destruct (Ascii.eqb c ","%char); [reflexivity|].
  destruct (strings.Split s ","%char); reflexivity.
Qed.

Lemma Split_isASCII (s : string) :
  strings.isASCII s = true ->
  forall n, In n (strings.Split s ","%char) -> strings.isASCII n = true.
Proof.
  induction s as [|c s IH]; simpl.
  - intros _ n [<-|[]]. reflexivity.
  - intros H. apply andb_prop in H. destruct H as [Hc Hs].
    specialize (IH Hs).
    destruct (Ascii.eqb c ","%char).
    + intros n [<-|Hin]; [reflexivity | now apply IH].
    + destruct (strings.Split s ","%char) as [|piece rest].
      * intros n [<-|[]]. simpl. now rewrite Hc.
      * intros n [<-|Hin].
        -- simpl. rewrite Hc. apply IH. now left.
        -- apply IH. now right.
Qed.

Lemma ToUpper_ascii (u : string -> string) (n : string) :
  strings.isASCII n = true ->
  strings.ToUpper u n = strings.upperASCII n
  /\ strings.ToUpper u (strings.upperASCII n) = strings.upperASCII n.
Proof.
  intros H. unfold strings.ToUpper.
  now rewrite upperASCII_isASCII, H, upperASCII_idempotent.
Qed.

Lemma existsb_ext_in {A : Type} (f g : A -> bool) (l : list A) :
  (forall x, In x l -> f x = g x) -> existsb f l = existsb g l.
Proof.
  induction l as [|x l IH]; simpl; [reflexivity|].
  intros H. rewrite (H x (or_introl eq_refl)), IH; [reflexivity|].
  intros y Hy. apply H. now right.
Qed.

Lemma existsb_map {A B : Type} (f : B -> bool) (g : A -> B) (l : list A) :
  existsb f (map g l) = existsb (fun x => f (g x)) l.
Proof. induction l as [|x l IH]; simpl; [reflexivity | now rewrite IH]. Qed.

Lemma listed_upperASCII (w : World) (names : list string) (r : api.Record_) :
  (forall n, In n names -> strings.isASCII n = true) ->
  ~ In "all" names ->
  listed w (map strings.upperASCII names) r = listed w names r.
Proof.
  intros Hascii Hall. unfold listed.
  assert (E1 : existsb (String.eqb "all") names = false).
  { destruct (existsb (String.eqb "all") names) eqn:E; [|reflexivity].
    apply existsb_exists in E. destruct E as [n [Hin Hn]].
    apply String.eqb_eq in Hn. subst n. contradiction. }
  assert (E2 : existsb (String.eqb "all") (map strings.upperASCII names)
               = false).
  { destruct (existsb _ (map strings.upperASCII names)) eqn:E; [|reflexivity].
    apply existsb_exists in E. destruct E as [n [Hin Hn]].
    apply String.eqb_eq in Hn. subst n.
    apply in_map_iff in Hin. destruct Hin as [m [Hm _]].
    exfalso. exact (upperASCII_not_all m Hm). }
  rewrite E1, E2, existsb_map. cbn [orb].
  apply existsb_ext_in. intros n Hin.
  destruct (ToUpper_ascii (unicode_upper w) n (Hascii n Hin)) as [-> ->].
  reflexivity.
Qed.

(** X21. The names of [-print] are matched without regard to ASCII case:
    for a flag value made of ASCII bytes with no name equal to [all], the
    listing run with the upper-cased flag value does and returns exactly
    what the run with the value itself does. *)
Theorem print_names_are_ascii_case_insensitive :
  forall (w : World) (fl fl' : Flags) (c : Client),
    strings.isASCII (printRecords fl) = true ->
    ~ In "all" (strings.Split (printRecords fl) ","%char) ->
    printRecords fl' = strings.upperASCII (printRecords fl) ->
    doPrintRecords fl' c w = doPrintRecords fl c w.
Proof.
  intros w fl fl' c Hascii Hall Hup.
  rewrite !doPrintRecords_unfold, Hup, Split_upperASCII.
  destruct (RetrieveAll c w) as [[[resp|e]|f a] t]; try reflexivity.
  unfold listing.
  rewrite (filter_ext _ _
             (fun r => listed_upperASCII w _ r (Split_isASCII _ Hascii) Hall)).
  reflexivity.
Qed.

Lemma print_names_are_ascii_case_insensitive_witness :
  doPrintRecords (flags "A,CNAME" false EmptyString EmptyString) exampleClient
    (exampleWorld refused (OK ok200) "203.0.113.7" (OK [])
       [record "example.com" "A" "198.51.100.1";
        record "www.example.com" "CNAME" "example.com";
        record "example.com" "TXT" "v=spf1 -all"])
  = doPrintRecords (flags "a,cName" false EmptyString EmptyString)
      exampleClient
      (exampleWorld refused (OK ok200) "203.0.113.7" (OK [])
         [record "example.com" "A" "198.51.100.1";
          record "www.example.com" "CNAME" "example.com";
          record "example.com" "TXT" "v=spf1 -all"]).
Proof.
  apply print_names_are_ascii_case_insensitive.
  - reflexivity.
  - intros [H|[H|[]]]; discriminate H.
  - reflexivity.
Defined.

(** ** More on the helpers and the check URL *)

(** X22. [recordExists] on two snapshots put together is the
    disjunction of [recordExists] on each: neither the order of the records
    nor a record that does not match changes the answer. *)
Theorem recordExists_of_appended_lists :
  forall (R1 R2 : list api.Record_) (typ name content : string),
    recordExists (R1 ++ R2) typ name content
    = recordExists R1 typ name content || recordExists R2 typ name content.
Proof.
  intros R1 R2 typ name content.
  induction R1 as [|r R1 IH]; simpl; [reflexivity|].
  destruct (negb (String.eqb (api.Type_ r) typ)); [exact IH|].
  destruct (String.eqb (api.Name r) name && String.eqb (api.Content r) content);
    [reflexivity | exact IH].
Qed.

Lemma append_cancel_right (s s' t : string) :
  (s ++ t)%string = (s' ++ t)%string -> s = s'.
Proof.
  revert s'. induction s as [|a s IH]; intros [|b s'] H; simpl in H.
  - reflexivity.
  - apply (f_equal String.length) in H. simpl in H.
    rewrite string_length_append in H. lia.
  - apply (f_equal String.length) in H. simpl in H.
    rewrite string_length_append in H. lia.
  - injection H as -> H. now rewrite (IH s' H).
Qed.

(** X23. For one domain, [dotjoin] gives different qualified names to
    different subdomains, the empty one included. *)
Theorem dotjoin_is_injective_in_the_subdomain :
  forall (s s' domain : string),
    dotjoin s domain = dotjoin s' domain -> s = s'.
Proof.
  intros s s' domain H. unfold dotjoin in H.
  destruct (String.eqb_spec s EmptyString) as [Es|Es];
    destruct (String.eqb_spec s' EmptyString) as [Es'|Es'].
  - now subst.
  - exfalso. apply (f_equal String.length) in H.
    rewrite string_length_append in H. simpl in H. lia.
  - exfalso. apply (f_equal String.length) in H.
    rewrite string_length_append in H. simpl in H. lia.
  - exact (append_cancel_right s s' ("." ++ domain) H).
Qed.

Lemma dotjoin_is_injective_in_the_subdomain_witness :
  "www" = "www".
Proof.
  apply (dotjoin_is_injective_in_the_subdomain "www" "www" "example.com").
  reflexivity.
Defined.

(** X24. A check URL for which no GET request can be created makes the
    run fatal at once with [Cannot create GET request] carrying the URL and
    the cause: nothing is sent, neither the GET nor the ping. *)
Theorem unusable_check_url_is_fatal_before_any_request :
  forall (w : World) (fl : Flags) (c : Client) (records : list api.Record_)
         (e : string),
    ddCheckURL fl <> EmptyString ->
    new_request_err w "GET" (RawURL (ddCheckURL fl)) = Some e ->
    doDynDNSUpdate fl c records w
    = (Fatal "Cannot create GET request for %s: %v"
             [AStr (ddCheckURL fl); AStr e], []).
Proof.
  intros w fl c records e Hu Hn.
  apply update_check_fatal. now apply checkURL_not_created.
Qed.

Lemma unusable_check_url_is_fatal_before_any_request_witness :
  doDynDNSUpdate (flags EmptyString true "www" "://no-scheme") exampleClient []
    (withRequestErrors staleWorld (fun _ => None)
       (fun method _ =>
          if String.eqb method "GET" then Some "missing protocol scheme"
          else None))
  = (Fatal "Cannot create GET request for %s: %v"
           [AStr "://no-scheme"; AStr "missing protocol scheme"], []).
Proof.
  apply unusable_check_url_is_fatal_before_any_request.
  - discriminate.
  - reflexivity.
Defined.

(** X25. A check GET that fails in the transport does not stop the run:
    the failure is logged and the next thing the run does is the ping call.
    Without a check URL the ping call is the first thing the run does. *)
Theorem failed_check_is_logged_and_ping_follows :
  forall (w : World) (fl : Flags) (c : Client) (records : list api.Record_),
    (forall e,
       ddCheckURL fl <> EmptyString ->
       new_request_err w "GET" (RawURL (ddCheckURL fl)) = None ->
       http_do w "GET" (RawURL (ddCheckURL fl)) None = Error e ->
       exists t,
         snd (doDynDNSUpdate fl c records w)
         = EvGet (ddCheckURL fl)
           :: EvLog "URL check for %s failed: %v"
                    [AStr (ddCheckURL fl); AStr e]
           :: EvCall (pingURL c) (pingRequest c) :: t)
    /\ (ddCheckURL fl = EmptyString ->
        exists t,
          snd (doDynDNSUpdate fl c records w)
          = EvCall (pingURL c) (pingRequest c) :: t).
Proof.
  intros w fl c records.
  assert (Hgo : forall t0,
             checkURL fl w = (Ret false, t0) ->
             exists t,
               snd (doDynDNSUpdate fl c records w)
               = t0 ++ EvCall (pingURL c) (pingRequest c) :: t).
  { intros t0 Hc.
    destruct (Ping_shape c w) as [[p|e] [tp [Hp Hpp]]].
    - rewrite (update_after_ping fl c records w t0 tp p Hc Hp). cbv zeta.
      assert (Htp : exists t', tp = EvCall (pingURL c) (pingRequest c) :: t')
        by (destruct Hpp as [->| ->]; eauto).
      destruct Htp as [t' ->].
      assert (Hany : forall (o : Outcome unit) (rest : Trace),
                 exists t,
                   snd (o, (t0 ++ (EvCall (pingURL c) (pingRequest c) :: t')
                               ++ [EvLog ("Your IP: %s" ++ LF)
                                         [AStr (api.YourIP p)];
                                   EvLookupHost
                                     (dotjoin (ddSubdomain fl)
                                              (Domain (Config c)))])
                           ++ rest)
                   = t0 ++ EvCall (pingURL c) (pingRequest c) :: t).
      { intros o rest. cbn [snd]. rewrite <- !app_assoc. cbn [app].
        eexists. reflexivity. }
      destruct (lookup_host w _) as [addrs|e]; [|apply Hany].
      destruct (addrMatches addrs (api.YourIP p)); [apply Hany|].
      destruct (recordExists records "A" _ (api.YourIP p)); [apply Hany|].
      destruct (passesIPv4Check (api.YourIP p)).
      + destruct (EditAllA c (ddSubdomain fl) (api.YourIP p) w)
          as [[[x|e]|f a] te]; apply Hany.
      + rewrite <- (app_nil_r (t0 ++ _ ++ _)). apply Hany.
    - rewrite (update_ping_failed fl c records w t0 tp e Hc Hp). cbn [snd].
      destruct Hpp as [->| ->]; eexists; reflexivity. }
  split.
  - intros e Hu Hn Hd.
    destruct (Hgo _ (checkURL_failed fl w e Hu Hn Hd)) as [t Ht].
    exists t. exact Ht.
  - intros Hu.
    destruct (Hgo _ (checkURL_unset fl w Hu)) as [t Ht].
    exists t. exact Ht.
Qed.

